(** * PDF table extractor: header normalisation and page-spec parsing

    A shallow embedding of [scripts/extract_table.py] and
    [scripts/extract_table_a2.py].

    Python values are modelled as follows.
    - A [str] is a Rocq [string]; every [ascii] stands for one code point
      below 256, so the string primitives below are the Latin-1 fragment
      of Python's.
    - An [int] is a [Z].
    - An exception is a constructor of [exn]; code that may raise returns a
      [result]. *)

From Stdlib Require Import List String Ascii ZArith NArith Lia Bool.
From Stdlib Require Import DecimalString DecimalN DecimalPos DecimalFacts.
Import ListNotations.

#[local] Open Scope string_scope.
#[local] Open Scope list_scope.

(* ================================================================= *)
(** ** Python string primitives *)

Module PyStr.

(** [str.isspace] on one code point: TAB..CR, FS..US, SPACE, NEL, NBSP. *)
Definition isspace (c : ascii) : bool :=
  let n := N_of_ascii c in
  (((9 <=? n) && (n <=? 13)) || ((28 <=? n) && (n <=? 32))
   || (n =? 133) || (n =? 160))%N.

(** [str.lower] on one code point: A-Z, and the upper-case letters
    U+00C0..U+00DE except the multiplication sign U+00D7. *)
Definition lower_char (c : ascii) : ascii :=
  let n := N_of_ascii c in
  if (((65 <=? n) && (n <=? 90))
      || ((192 <=? n) && (n <=? 222) && negb (n =? 215)))%N
  then ascii_of_N (n + 32) else c.

Fixpoint lower (s : string) : string :=
  match s with
  | EmptyString => EmptyString
  | String c r => String (lower_char c) (lower r)
  end.

Fixpoint lstrip_by (sp : ascii -> bool) (s : string) : string :=
  match s with
  | EmptyString => EmptyString
  | String c r => if sp c then lstrip_by sp r else s
  end.

Fixpoint rstrip_by (sp : ascii -> bool) (s : string) : string :=
  match s with
  | EmptyString => EmptyString
  | String c r =>
      match rstrip_by sp r with
      | EmptyString => if sp c then EmptyString else String c EmptyString
      | r' => String c r'
      end
  end.

Definition strip_by (sp : ascii -> bool) (s : string) : string :=
  rstrip_by sp (lstrip_by sp s).

(** [s.strip()] *)
Definition strip (s : string) : string := strip_by isspace s.

(** [s.split(sep)] for a one-character separator: never the empty list. *)
Fixpoint split (sep : ascii) (s : string) : list string :=
  match s with
  | EmptyString => [EmptyString]
  | String c r =>
      if Ascii.eqb c sep then EmptyString :: split sep r
      else match split sep r with
           | h :: t => String c h :: t
           | [] => [String c EmptyString]
           end
  end.

(** [sep in s] for a one-character [sep]. *)
Fixpoint contains (sep : ascii) (s : string) : bool :=
  match s with
  | EmptyString => false
  | String c r => Ascii.eqb c sep || contains sep r
  end.

(** [sep.join(parts)] on a list of [str]. *)
Definition join (sep : string) (parts : list string) : string :=
  String.concat sep parts.

(** [str(n)] for an [int] of at most 4300 digits, such as every [int] a
    frame holds; [str] of a longer one raises (see [py_str] below). *)
Definition str_int (z : Z) : string := NilZero.string_of_int (Z.to_int z).

(** *** [int(s)] in base 10 *)

Definition isdigit (c : ascii) : bool :=
  let n := N_of_ascii c in ((48 <=? n) && (n <=? 57))%N.

Definition digit_val (c : ascii) : Z := Z.of_N (N_of_ascii c) - 48.

(** The white space [int] skips at both ends: FS..US are not part of it. *)
Definition int_space (c : ascii) : bool :=
  let n := N_of_ascii c in
  (((9 <=? n) && (n <=? 13)) || (n =? 32) || (n =? 133) || (n =? 160))%N.

(** Digits, with single underscores allowed between two digits.
    [prev] tells whether the previous character was a digit. *)
Fixpoint int_digits (acc : Z) (prev : bool) (s : string) : option Z :=
  match s with
  | EmptyString => if prev then Some acc else None
  | String c r =>
      if isdigit c then int_digits (10 * acc + digit_val c) true r
      else if Ascii.eqb c "_" then
             if prev then int_digits acc false r else None
      else None
  end.

(** [sys.get_int_max_str_digits()], as the interpreter sets it. *)
Definition int_max_str_digits : nat := 4300.

Fixpoint count_digits (s : string) : nat :=
  match s with
  | EmptyString => 0
  | String c r => (if isdigit c then 1 else 0) + count_digits r
  end.

(** The digits after the sign: a literal with more than
    [int_max_str_digits] digits is refused, leading zeros counted and
    underscores not. *)
Definition int_body (body : string) : option Z :=
  if Nat.ltb int_max_str_digits (count_digits body) then None
  else int_digits 0 false body.

Definition int (s : string) : option Z :=
  match strip_by int_space s with
  | EmptyString => None
  | String c r as t =>
      if Ascii.eqb c "+" then int_body r
      else if Ascii.eqb c "-" then option_map Z.opp (int_body r)
      else int_body t
  end.

End PyStr.

(* ================================================================= *)
(** ** Exceptions *)

(** The exception classes the modelled code can meet; all of them derive
    from [Exception]. *)
Inductive exn : Type :=
| ValueError
| TypeError
| IndexError
| AttributeError
| OSError
| OverflowError.

Inductive result (A : Type) : Type :=
| Ok (a : A)
| Raise (e : exn).

Arguments Ok {A} a.
Arguments Raise {A} e.

Definition bind {A B : Type} (m : result A) (k : A -> result B) : result B :=
  match m with
  | Ok a => k a
  | Raise e => Raise e
  end.

Notation "x <- m ;; k" := (bind m (fun x => k))
  (at level 61, m at next level, right associativity).

(** A comprehension [[f(x) for x in xs]] whose body may raise. *)
Fixpoint mapM {A B : Type} (f : A -> result B) (xs : list A) : result (list B) :=
  match xs with
  | [] => Ok []
  | x :: r => y <- f x ;; ys <- mapM f r ;; Ok (y :: ys)
  end.

(** [xs[i]] for [0 <= i]: [IndexError] out of range. *)
Definition getitem {A : Type} (xs : list A) (i : nat) : result A :=
  match nth_error xs i with
  | Some x => Ok x
  | None => Raise IndexError
  end.

(** [range(n)] and [range(lo, hi)]. *)
Definition range (n : nat) : list nat := seq 0 n.

Definition rangeZ (lo hi : Z) : list Z :=
  map (fun i => (lo + Z.of_nat i)%Z) (seq 0 (Z.to_nat (hi - lo))).

(** [sys.maxsize] of a 64-bit interpreter. *)
Definition maxsize : Z := 9223372036854775807.

(** [l.extend(range(lo, hi))]: a range of more than [sys.maxsize] items
    has no length that [extend] can ask for, and it raises.  A shorter
    range that the memory of the machine cannot hold ends in
    [MemoryError]; how much that is is not part of the model, and the
    properties that say a list is built are stated for lists of a size any
    machine holds. *)
Definition extend_range (l : list Z) (lo hi : Z) : result (list Z) :=
  if (maxsize <? hi - lo)%Z then Raise OverflowError
  else Ok (l ++ rangeZ lo hi).

(* ================================================================= *)
(** ** Cell values and data frames *)

(** The objects found in a cell of an extracted table, or handed to a
    function as an argument: [None], the float [nan], a [str], an [int].
    Floats other than [nan] are outside the model. *)
Inductive pyobj : Type :=
| PyNone
| PyNaN
| PyStr (s : string)
| PyInt (z : Z).

(** [str(v)], for an [int] within the limit of [PyStr.str_int]. *)
Definition str (v : pyobj) : string :=
  match v with
  | PyNone => "None"
  | PyNaN => "nan"
  | PyStr s => s
  | PyInt z => PyStr.str_int z
  end.

(** [str(v)] with its failure: an [int] of more than 4300 digits has no
    decimal form, the sign not counted. *)
Definition py_str (v : pyobj) : result string :=
  match v with
  | PyInt z =>
      if Nat.ltb PyStr.int_max_str_digits
                 (PyStr.count_digits (PyStr.str_int z))
      then Raise ValueError
      else Ok (PyStr.str_int z)
  | _ => Ok (str v)
  end.

(** [pandas.isna]: the empty string is not a missing value. *)
Definition isna (v : pyobj) : bool :=
  match v with
  | PyNone | PyNaN => true
  | PyStr _ | PyInt _ => false
  end.

(** [p != ""] *)
Definition ne_empty (p : pyobj) : bool :=
  match p with
  | PyStr EmptyString => false
  | _ => true
  end.

(** [sep.join(parts)] on objects: [TypeError] unless every item is a [str]. *)
Definition as_str (p : pyobj) : result string :=
  match p with
  | PyStr s => Ok s
  | _ => Raise TypeError
  end.

Definition str_join (sep : string) (parts : list pyobj) : result string :=
  ss <- mapM as_str parts ;; Ok (PyStr.join sep ss).

(** Column labels: a flat index or a [MultiIndex] given by its arrays,
    one per level. *)
Inductive Index : Type :=
| Flat (labels : list pyobj)
| MultiIndex (arrays : list (list pyobj)).

Definition index_len (ix : Index) : nat :=
  match ix with
  | Flat labels => List.length labels
  | MultiIndex arrays => List.length (hd [] arrays)
  end.

(** A frame is its column index and its rows, top to bottom.  pandas keeps
    every row as wide as the index; nothing below relies on it. *)
Record DataFrame : Type := mkDataFrame {
  columns : Index;
  rows : list (list pyobj)
}.

(** [len(df)] and [df.shape[1]] *)
Definition len (df : DataFrame) : nat := List.length (rows df).
Definition shape1 (df : DataFrame) : nat := index_len (columns df).

(** [df.columns = ix]: [ValueError] on a length mismatch. *)
Definition set_columns (df : DataFrame) (ix : Index) : result DataFrame :=
  if Nat.eqb (index_len ix) (shape1 df)
  then Ok (mkDataFrame ix (rows df))
  else Raise ValueError.

(** [row.ffill()]: a missing value takes the last valid value to its left,
    and stays missing when there is none. *)
Fixpoint ffill_row (last : option pyobj) (row : list pyobj) : list pyobj :=
  match row with
  | [] => []
  | v :: r =>
      if isna v
      then match last with
           | Some w => w :: ffill_row last r
           | None => v :: ffill_row last r
           end
      else v :: ffill_row (Some v) r
  end.

(** [frame.ffill(axis=1)] *)
Definition ffill (frame : list (list pyobj)) : list (list pyobj) :=
  map (ffill_row None) frame.

(** [pd.MultiIndex.from_arrays] as pandas documents it: it needs at least
    one level and all levels of one length. *)
Definition same_length (arrays : list (list pyobj)) : bool :=
  forallb (fun a => Nat.eqb (List.length a) (List.length (hd [] arrays))) arrays.

Definition pandas_from_arrays (arrays : list (list pyobj)) : result Index :=
  match arrays with
  | [] => Raise ValueError
  | _ => if same_length arrays then Ok (MultiIndex arrays) else Raise ValueError
  end.

(** What is handed to [tabula.read_pdf] as [pages]. *)
Inductive pages_arg : Type :=
| AllPages
| PageList (l : list Z).

(* ================================================================= *)
(** ** Builtins shared by the two scripts *)

(** [int(s)], raising [ValueError] on an invalid literal. *)
Definition int (s : string) : result Z :=
  match PyStr.int s with
  | Some z => Ok z
  | None => Raise ValueError
  end.

(** [start, end = map(int, parts)]: exactly two items, each a valid
    literal; every failure is a [ValueError]. *)
Definition unpack2 (parts : list string) : result (Z * Z) :=
  match parts with
  | [a; b] => x <- int a ;; y <- int b ;; Ok (x, y)
  | _ => Raise ValueError
  end.

(* ================================================================= *)
(** ** Effects: the file system, the standard output and process exit *)

(** The part of the world the scripts act on: the temporary directories
    that exist, each with the names of the files in it; the output files
    that exist, written in full or in part; and the number of [print]
    calls made so far. *)
Record world : Type := mkWorld {
  tmp : list (string * list string);
  outputs : list string;
  printed : nat
}.

(** How a call ends: it returns, [sys.exit(code)] is under way, or an
    exception is. [SystemExit] does not derive from [Exception]. *)
Inductive outcome (A : Type) : Type :=
| Return (a : A)
| SysExit (code : Z)
| Uncaught (e : exn).

Arguments Return {A} a.
Arguments SysExit {A} code.
Arguments Uncaught {A} e.

Definition prog (A : Type) : Type := world -> outcome A * world.

Definition ret {A : Type} (a : A) : prog A := fun w => (Return a, w).

Definition sys_exit {A : Type} (code : Z) : prog A := fun w => (SysExit code, w).

Definition lift {A : Type} (r : result A) : prog A :=
  fun w => match r with
           | Ok a => (Return a, w)
           | Raise e => (Uncaught e, w)
           end.

Definition pbind {A B : Type} (m : prog A) (k : A -> prog B) : prog B :=
  fun w => match m w with
           | (Return a, w1) => k a w1
           | (SysExit c, w1) => (SysExit c, w1)
           | (Uncaught e, w1) => (Uncaught e, w1)
           end.

Notation "x <-- m ;; k" := (pbind m (fun x => k))
  (at level 61, m at next level, right associativity).

(** [try: body / except Exception as e: handler(e)] *)
Definition try_except {A : Type} (body : prog A) (handler : exn -> prog A)
  : prog A :=
  fun w => match body w with
           | (Uncaught e, w1) => handler e w1
           | r => r
           end.

(** A [for] loop that collects one value per item. *)
Fixpoint for_each {A B : Type} (f : A -> prog B) (xs : list A)
  : prog (list B) :=
  match xs with
  | [] => ret []
  | x :: r => y <-- f x ;; ys <-- for_each f r ;; ret (y :: ys)
  end.

Definition add_dir (d : string) (w : world) : world :=
  mkWorld ((d, []) :: tmp w) (outputs w) (printed w).

Definition add_file (d f : string) (w : world) : world :=
  mkWorld (map (fun e => if fst e =? d then (fst e, f :: snd e) else e) (tmp w))
          (outputs w) (printed w).

Definition rmtree (d : string) (w : world) : world :=
  mkWorld (filter (fun e => negb (fst e =? d)) (tmp w)) (outputs w) (printed w).

Definition dir_exists (d : string) (w : world) : bool :=
  existsb (fun e => fst e =? d) (tmp w).

(** The files of the temporary directory [d]. *)
Definition files_in (d : string) (w : world) : list string :=
  List.concat (map snd (filter (fun e => fst e =? d) (tmp w))).

(** How writing a file ends: it is written; or the call raised before
    the file existed; or it raised with the file created, in part at
    least. *)
Inductive written : Type :=
| Written
| NotCreated (e : exn)
| LeftPartial (e : exn).

(** What the libraries and the operating system answer during one run.
    [print_result k] is the fate of the [k]-th [print] of the run. *)
Record env : Type := mkEnv {
  DEPENDENCIES_AVAILABLE : bool;
  print_result : nat -> result unit;
  mkdir_parents : string -> result unit;
  mkdtemp : result string;
  requests_get : string -> result string;
  save_pdf : string -> written;
  read_pdf : string -> pages_arg -> result (list DataFrame);
  from_arrays : list (list pyobj) -> result Index;
  pd_concat : list DataFrame -> result DataFrame;
  to_csv : DataFrame -> string -> written
}.

(** [print(...)]: it may raise, as on a closed standard output. *)
Definition print (e : env) : prog unit :=
  fun w => lift (print_result e (printed w))
                (mkWorld (tmp w) (outputs w) (S (printed w))).

(** [with tempfile.TemporaryDirectory() as temp_dir: body]: creating the
    directory, under a name of the system's choice, may raise; once it is
    created, it is removed with its content when the block is left,
    however it is left.  Removing a directory that the run itself has
    created and filled is taken to succeed. *)
Definition with_TemporaryDirectory {A : Type} (e : env)
  (body : string -> prog A) : prog A :=
  fun w =>
    match mkdtemp e with
    | Raise x => (Uncaught x, w)
    | Ok temp_dir =>
        let (r, w1) := body temp_dir (add_dir temp_dir w) in
        (r, rmtree temp_dir w1)
    end.

(** [with open(path, 'wb') as f: f.write(content)] for a file of [dir]:
    [open] needs the directory. *)
Definition open_write (e : env) (dir name content : string) : prog unit :=
  fun w =>
    if dir_exists dir w then
      match save_pdf e content with
      | Written => (Return tt, add_file dir name w)
      | NotCreated x => (Uncaught x, w)
      | LeftPartial x => (Uncaught x, add_file dir name w)
      end
    else (Uncaught OSError, w).

(** [df.to_csv(path, index=False)] *)
Definition write_csv (e : env) (df : DataFrame) (path : string) : prog unit :=
  fun w =>
    let w1 := mkWorld (tmp w) (path :: outputs w) (printed w) in
    match to_csv e df path with
    | Written => (Return tt, w1)
    | NotCreated x => (Uncaught x, w)
    | LeftPartial x => (Uncaught x, w1)
    end.

(* ================================================================= *)
(** ** [scripts/extract_table.py] *)

Module ExtractTable.

(** *** The header normaliser *)

(** The body of the loop of [_normalize_header_values]. *)
Definition header_value (v : pyobj) : string :=
  let s := match v with PyNone => "" | _ => str v end in
  let s := PyStr.strip s in
  if (PyStr.lower s =? "nan") || (PyStr.lower s =? "none") then "" else s.

Definition _normalize_header_values (values : list pyobj) : list string :=
  map header_value values.

(** Line 87: pad with [""] up to [ncols], or cut down to [ncols]. *)
Definition fit_ncols (ncols : nat) (arr : list pyobj) : list pyobj :=
  if Nat.ltb (List.length arr) ncols
  then arr ++ repeat (PyStr "") (ncols - List.length arr)
  else firstn ncols arr.

(** Lines 76-87: the header block, cleaned, forward-filled, read back row
    by row and fitted to the column count.  The cells of a row reach the
    cleaner as the frame holds them; an [int] cell that pandas turns into
    a float on the way, in a frame of numeric columns only, is not
    covered. *)
Definition header_arrays (df : DataFrame) (header_rows : Z)
  : result (list (list pyobj)) :=
  let headers := firstn (Z.to_nat header_rows) (rows df) in
  let headers :=
    map (fun r => map PyStr (_normalize_header_values r)) headers in
  let headers := ffill headers in
  arrays <- mapM (fun i => getitem headers i) (range (Z.to_nat header_rows)) ;;
  let ncols := shape1 df in
  Ok (map (fit_ncols ncols) arrays).

(** Lines 93-97 (and again 105-109): one flat label per column. *)
Definition flat_cols (arrays : list (list pyobj)) (header_rows : Z)
  (ncols : nat) (sep : string) : result (list pyobj) :=
  mapM (fun col_idx =>
          parts <- mapM (fun level =>
                           arr <- getitem arrays level ;; getitem arr col_idx)
                        (range (Z.to_nat header_rows)) ;;
          let parts := filter ne_empty parts in
          match parts with
          | [] => Ok (PyStr ("col_" ++ PyStr.str_int (Z.of_nat col_idx)))
          | _ => s <- str_join sep parts ;; Ok (PyStr s)
          end)
       (range ncols).

Section Normaliser.

(** The index constructor is a library call; the normaliser is stated over
    any behaviour of it. *)
Variable from_arrays : list (list pyobj) -> result Index.

Definition _apply_multirow_header (df : DataFrame) (header_rows : Z)
  (flatten : bool) (sep : string) : result DataFrame :=
  if (header_rows <=? 0)%Z then Ok df
  else if (Z.of_nat (len df) <? header_rows)%Z then Ok df
  else
    arrays <- header_arrays df header_rows ;;
    let ncols := shape1 df in
    let data :=
      mkDataFrame (columns df) (skipn (Z.to_nat header_rows) (rows df)) in
    if flatten then
      cols <- flat_cols arrays header_rows ncols sep ;;
      set_columns data (Flat cols)
    else
      match (ix <- from_arrays arrays ;; set_columns data ix) with
      | Ok d => Ok d
      | Raise _ =>
          cols <- flat_cols arrays header_rows ncols sep ;;
          set_columns data (Flat cols)
      end.

End Normaliser.

(** *** The [--pages] argument *)


(** Lines 124-130: the loop over the comma-separated items. *)
Fixpoint pages_loop (specs : list string) (pages_list : list Z)
  : result (list Z) :=
  match specs with
  | [] => Ok pages_list
  | page_spec :: rest =>
      let page_spec := PyStr.strip page_spec in
      if PyStr.contains "-" page_spec then
        se <- unpack2 (PyStr.split "-" page_spec) ;;
        pages_list <- extend_range pages_list (fst se) (snd se + 1) ;;
        pages_loop rest pages_list
      else
        p <- int page_spec ;;
        pages_loop rest (pages_list ++ [p])
  end.

(** Lines 119-130. *)
Definition pages_list (pages : pyobj) : result pages_arg :=
  let is_all :=
    match pages with
    | PyStr s => PyStr.lower s =? "all"
    | _ => false
    end in
  if is_all then Ok AllPages
  else
    s <- py_str pages ;;
    l <- pages_loop (PyStr.split "," s) [] ;; Ok (PageList l).

(** *** The run *)

(** Lines 34-47. *)
Definition download_pdf (e : env) (url temp_dir : string) : prog string :=
  try_except
    (content <-- lift (requests_get e url) ;;
     let pdf_path := (temp_dir ++ "/temp_pdf.pdf")%string in
     _ <-- open_write e temp_dir "temp_pdf.pdf" content ;;
     ret pdf_path)
    (fun _ => _ <-- print e ;; sys_exit 1).

(** Lines 115-158. *)
Definition extract_tables (e : env) (pdf_path : string) (pages : pyobj)
  (output_csv : string) (header_rows : Z) (flatten_headers : bool)
  (header_sep : string) : prog unit :=
  try_except
    (pages_list <-- lift (pages_list pages) ;;
     _ <-- print e ;;
     tables <-- lift (read_pdf e pdf_path pages_list) ;;
     _ <-- match tables with
           | [] => _ <-- print e ;; sys_exit 1
           | _ => ret tt
           end ;;
     processed_tables <--
       for_each (fun df =>
                   if negb (header_rows =? 0)%Z && (header_rows >? 0)%Z
                   then
                     _ <-- print e ;;
                     lift (_apply_multirow_header (from_arrays e) df
                             header_rows flatten_headers header_sep)
                   else ret df)
                tables ;;
     combined_df <-- lift (pd_concat e processed_tables) ;;
     _ <-- write_csv e combined_df output_csv ;;
     _ <-- print e ;;
     print e)
    (fun _ => _ <-- print e ;; sys_exit 1).

(** The parsed command line. *)
Record Args : Type := mkArgs {
  pdf_url : string;
  pages : string;
  output_csv : string;
  header_rows : Z;
  flatten_headers : bool;
  header_sep : string
}.

(** Lines 198-209: the body of the [with] statement. *)
Definition main_block (e : env) (args : Args) (temp_dir : string)
  : prog unit :=
  _ <-- print e ;;
  pdf_path <-- download_pdf e (pdf_url args) temp_dir ;;
  _ <-- print e ;;
  extract_tables e pdf_path (PyStr (pages args)) (output_csv args)
    (header_rows args) (flatten_headers args) (header_sep args).

(** Lines 188-209, after [parse_args]. *)
Definition main (e : env) (args : Args) : prog unit :=
  _ <-- (if DEPENDENCIES_AVAILABLE e then ret tt
         else _ <-- print e ;; sys_exit 1) ;;
  _ <-- lift (mkdir_parents e (output_csv args)) ;;
  with_TemporaryDirectory e (main_block e args).

End ExtractTable.

(* ================================================================= *)
(** ** [scripts/extract_table_a2.py] *)

Module ExtractTableA2.


(** Lines 50-56. *)
Fixpoint pages_loop (specs : list string) (pages_list : list Z)
  : result (list Z) :=
  match specs with
  | [] => Ok pages_list
  | page_spec :: rest =>
      let page_spec := PyStr.strip page_spec in
      if PyStr.contains "-" page_spec then
        se <- unpack2 (PyStr.split "-" page_spec) ;;
        pages_list <- extend_range pages_list (fst se) (snd se + 1) ;;
        pages_loop rest pages_list
      else
        p <- int page_spec ;;
        pages_loop rest (pages_list ++ [p])
  end.

(** Lines 45-56: [pages.lower()] and [pages.split] exist on a [str] only. *)
Definition pages_list (pages : pyobj) : result pages_arg :=
  match pages with
  | PyStr s =>
      if PyStr.lower s =? "all" then Ok AllPages
      else l <- pages_loop (PyStr.split "," s) [] ;; Ok (PageList l)
  | _ => Raise AttributeError
  end.


(** Lines 25-38. *)
Definition download_pdf (e : env) (url temp_dir : string) : prog string :=
  try_except
    (content <-- lift (requests_get e url) ;;
     let pdf_path := (temp_dir ++ "/temp_pdf.pdf")%string in
     _ <-- open_write e temp_dir "temp_pdf.pdf" content ;;
     ret pdf_path)
    (fun _ => _ <-- print e ;; sys_exit 1).

(** Lines 41-77. *)
Definition extract_tables (e : env) (pdf_path : string) (pages : pyobj)
  (output_csv : string) : prog unit :=
  try_except
    (pages_list <-- lift (pages_list pages) ;;
     _ <-- print e ;;
     tables <-- lift (read_pdf e pdf_path pages_list) ;;
     _ <-- match tables with
           | [] => _ <-- print e ;; sys_exit 1
           | _ => ret tt
           end ;;
     combined_df <-- lift (pd_concat e tables) ;;
     _ <-- write_csv e combined_df output_csv ;;
     _ <-- print e ;;
     print e)
    (fun _ => _ <-- print e ;; sys_exit 1).

(** The parsed command line. *)
Record Args : Type := mkArgs {
  pdf_url : string;
  pages : string;
  output_csv : string
}.

(** Lines 98-102: the body of the [with] statement. *)
Definition main_block (e : env) (args : Args) (temp_dir : string)
  : prog unit :=
  _ <-- print e ;;
  pdf_path <-- download_pdf e (pdf_url args) temp_dir ;;
  _ <-- print e ;;
  extract_tables e pdf_path (PyStr (pages args)) (output_csv args).

(** Lines 88-102, after [parse_args]. *)
Definition main (e : env) (args : Args) : prog unit :=
  _ <-- (if DEPENDENCIES_AVAILABLE e then ret tt
         else _ <-- print e ;; sys_exit 1) ;;
  _ <-- lift (mkdir_parents e (output_csv args)) ;;
  with_TemporaryDirectory e (main_block e args).

End ExtractTableA2.

(* ================================================================= *)
(** ** Definitions used to state the properties *)

Import ExtractTable.

(** The first and the last character of a string. *)
Definition first_char (s : string) : option ascii :=
  match s with
  | EmptyString => None
  | String c _ => Some c
  end.

Fixpoint last_char (s : string) : option ascii :=
  match s with
  | EmptyString => None
  | String c EmptyString => Some c
  | String _ r => last_char r
  end.

(** A string that starts or ends with white space. *)
Definition edge_space (s : string) : bool :=
  match first_char s, last_char s with
  | Some a, Some b => PyStr.isspace a || PyStr.isspace b
  | _, _ => false
  end.

(** A string all of whose characters satisfy [p]. *)
Fixpoint all_chars (p : ascii -> bool) (s : string) : bool :=
  match s with
  | EmptyString => true
  | String c r => p c && all_chars p r
  end.

(** A string made of white space only. *)
Definition all_space (s : string) : bool := all_chars PyStr.isspace s.

(** The characters of a well-formed page specification, the comma apart. *)
Definition item_char (c : ascii) : bool :=
  PyStr.isspace c || PyStr.isdigit c || Ascii.eqb c "-".

(** A string that starts with white space or a digit. *)
Definition starts_plain (s : string) : bool :=
  match s with
  | EmptyString => false
  | String c _ => PyStr.isspace c || PyStr.isdigit c
  end.

(** Truncation or right-padding of one row of labels. *)
Definition fit_labels (ncols : nat) (l : list string) : list string :=
  if Nat.ltb (List.length l) ncols
  then l ++ repeat "" (ncols - List.length l)
  else firstn ncols l.

(** The cleaned and fitted label rows of the header block, top to bottom. *)
Definition header_levels (df : DataFrame) (header_rows : Z)
  : list (list string) :=
  map (fun r => fit_labels (shape1 df) (_normalize_header_values r))
      (firstn (Z.to_nat header_rows) (rows df)).

(** The fragments of column [i], one per level, top to bottom. *)
Definition fragments (levels : list (list string)) (i : nat) : list string :=
  map (fun lv => nth i lv "") levels.

(** The flat label of column [i] from its fragments. *)
Definition column_label (sep : string) (frags : list string) (i : nat)
  : string :=
  match filter (fun p => negb (p =? "")) frags with
  | [] => "col_" ++ PyStr.str_int (Z.of_nat i)
  | parts => PyStr.join sep parts
  end.

(** The flat labels of a frame, column by column. *)
Definition flat_labels (df : DataFrame) (header_rows : Z) (sep : string)
  : list string :=
  map (fun i => column_label sep (fragments (header_levels df header_rows) i) i)
      (range (shape1 df)).

(** Line 89: the frame without its header block. *)
Definition data_slice (df : DataFrame) (header_rows : Z) : DataFrame :=
  mkDataFrame (columns df) (skipn (Z.to_nat header_rows) (rows df)).

(** One item of a page specification: a page, or an inclusive range. *)
Inductive page_item : Type :=
| Page (n : N)
| Pages (first last : N).

Definition decimal (n : N) : string := PyStr.str_int (Z.of_N n).

Definition item_text (t : page_item) : string :=
  match t with
  | Page n => decimal n
  | Pages a b => decimal a ++ "-" ++ decimal b
  end.

(** [lo, lo+1, ..., hi], empty when [hi < lo]. *)
Definition inclusive (lo hi : Z) : list Z :=
  map (fun i => (lo + Z.of_nat i)%Z) (seq 0 (Z.to_nat (hi - lo + 1))).

Definition item_pages (t : page_item) : list Z :=
  match t with
  | Page n => [Z.of_N n]
  | Pages a b => inclusive (Z.of_N a) (Z.of_N b)
  end.

(** An item as it may be typed: white space on both sides. *)
Record padded_item : Type := mkPadded {
  pad_left : string;
  item : page_item;
  pad_right : string
}.

Definition padded_text (p : padded_item) : string :=
  pad_left p ++ item_text (item p) ++ pad_right p.

(** A numeral of at most 4300 digits. *)
Definition numeral_ok (n : N) : bool :=
  Nat.leb (String.length (decimal n)) PyStr.int_max_str_digits.

Definition item_ok (t : page_item) : bool :=
  match t with
  | Page n => numeral_ok n
  | Pages a b => numeral_ok a && numeral_ok b
  end.

(** White space only around the item, and numerals within the limit. *)
Definition padded_ok (p : padded_item) : bool :=
  all_space (pad_left p) && all_space (pad_right p) && item_ok (item p).

(** A number of pages whose list any machine that runs the scripts holds
    (some tens of megabytes). *)
Definition page_budget : Z := 1000000.

(** The table of the example of the specification, with one data row. *)
Definition spanning_example : DataFrame :=
  mkDataFrame (Flat [PyStr "c0"; PyStr "c1"; PyStr "c2"])
    [ [PyStr "A"; PyStr ""; PyStr "B"];
      [PyStr "x"; PyStr "y"; PyStr "z"];
      [PyInt 1; PyInt 2; PyInt 3] ].

(** The same table as the extraction library delivers it: the blank cell
    is a missing value. *)
Definition spanning_example_nan : DataFrame :=
  mkDataFrame (Flat [PyStr "c0"; PyStr "c1"; PyStr "c2"])
    [ [PyStr "A"; PyNaN; PyStr "B"];
      [PyStr "x"; PyStr "y"; PyStr "z"];
      [PyInt 1; PyInt 2; PyInt 3] ].

(** The [int]s a frame holds are 64-bit. *)
Definition cell_fits (v : pyobj) : bool :=
  match v with
  | PyInt z => ((- maxsize - 1 <=? z) && (z <=? maxsize))%Z
  | _ => true
  end.

Definition frame_fits (df : DataFrame) : bool :=
  forallb (forallb cell_fits) (rows df).

(** Rows without an [int] cell: pandas hands such a row to the cleaner
    cell by cell as the frame holds it, whatever the other rows are. *)
Definition no_int (v : pyobj) : bool :=
  match v with
  | PyInt _ => false
  | _ => true
  end.

Definition text_rows (block : list (list pyobj)) : bool :=
  forallb (forallb no_int) block.

(** An item of a page specification that is blank once stripped, or that
    starts with a hyphen. *)
Definition bad_item (x : string) : bool :=
  match PyStr.strip x with
  | EmptyString => true
  | String c _ => Ascii.eqb c "-"
  end.

(** A program that leaves the temporary directories as it found them. *)
Definition tmp_same {A : Type} (m : prog A) : Prop :=
  forall w, tmp (snd (m w)) = tmp w.



(** The life of the temporary directory in a run of [main] that started
    in [w] and ended as [run], [block] being the body of the [with]
    statement.  At the end the temporary directories are those of the
    start.  If the system created a directory [d] for the run, it is gone
    at the end; and if the run got as far as the [with] statement, the
    block ran in a world where [d] existed, [d] still existed when the
    block was left, it then held the PDF if the download had written it,
    and the run ended by removing [d]. *)
Definition temp_dir_lifecycle (e : env) (w : world) (out url : string)
  (block : string -> prog unit) (run : outcome unit * world) : Prop :=
  tmp (snd run) = tmp w
  /\ forall d, mkdtemp e = Ok d ->
       dir_exists d (snd run) = false
       /\ (DEPENDENCIES_AVAILABLE e = true -> mkdir_parents e out = Ok tt ->
           exists r w_left,
             block d (add_dir d w) = (r, w_left)
             /\ dir_exists d (add_dir d w) = true
             /\ dir_exists d w_left = true
             /\ (forall content,
                    print_result e (printed w) = Ok tt ->
                    requests_get e url = Ok content ->
                    save_pdf e content = Written ->
                    In "temp_pdf.pdf" (files_in d w_left))
             /\ run = (r, rmtree d w_left)).

(** What the body of the [with] statement does to the temporary
    directories when it runs with its directory [d] in place: nothing, or
    it adds the PDF to [d]; and it does add it when its first [print], the
    request and the write succeed. *)
Definition block_footprint (e : env) (url : string)
  (block : string -> prog unit) : Prop :=
  forall d w, dir_exists d w = true ->
    (tmp (snd (block d w)) = tmp w
     \/ tmp (snd (block d w)) = tmp (add_file d "temp_pdf.pdf" w))
    /\ (forall content,
           print_result e (printed w) = Ok tt ->
           requests_get e url = Ok content ->
           save_pdf e content = Written ->
           tmp (snd (block d w)) = tmp (add_file d "temp_pdf.pdf" w)).

(** Three runs: all goes well; the download fails; no table is found. *)
Definition env_ok : env :=
  mkEnv true (fun _ => Ok tt) (fun _ => Ok tt) (Ok "/tmp/tmpq1")
        (fun _ => Ok "%PDF") (fun _ => Written)
        (fun _ _ => Ok [spanning_example]) pandas_from_arrays
        (fun l => Ok (hd spanning_example l)) (fun _ _ => Written).

Definition env_no_network : env :=
  mkEnv true (fun _ => Ok tt) (fun _ => Ok tt) (Ok "/tmp/tmpq1")
        (fun _ => Raise OSError) (fun _ => Written)
        (fun _ _ => Ok [spanning_example]) pandas_from_arrays
        (fun l => Ok (hd spanning_example l)) (fun _ _ => Written).

Definition env_no_tables : env :=
  mkEnv true (fun _ => Ok tt) (fun _ => Ok tt) (Ok "/tmp/tmpq1")
        (fun _ => Ok "%PDF") (fun _ => Written)
        (fun _ _ => Ok []) pandas_from_arrays
        (fun l => Ok (hd spanning_example l)) (fun _ _ => Written).

Definition args_example : ExtractTable.Args :=
  ExtractTable.mkArgs "http://host/doc.pdf" "1,3,5-7" "out/t.csv" 2 true " - ".

Definition args_a2_example : ExtractTableA2.Args :=
  ExtractTableA2.mkArgs "http://host/doc.pdf" "all" "out/t.csv".

(** A world with one temporary directory of another process. *)
Definition world_example : world :=
  mkWorld [("/tmp/other", ["x.bin"])] [] 0.

(* ================================================================= *)
(** ** Facts about the building blocks *)

Lemma bind_ok {A B : Type} (a : A) (k : A -> result B) :
  bind (Ok a) k = k a.
Proof. reflexivity. Qed.

Lemma mapM_ok_map {A B : Type} (f : A -> result B) (g : A -> B) (xs : list A) :
  (forall x, In x xs -> f x = Ok (g x)) -> mapM f xs = Ok (map g xs).
Proof.
  induction xs as [|x xs IH]; intros H; simpl.
  - reflexivity.
  - rewrite (H x (or_introl eq_refl)). simpl.
    rewrite IH by (intros y Hy; apply H; now right). reflexivity.
Qed.

Lemma mapM_map {A B C : Type} (f : B -> result C) (g : A -> B) (xs : list A) :
  mapM f (map g xs) = mapM (fun x => f (g x)) xs.
Proof.
  induction xs as [|x xs IH]; simpl; [reflexivity|]. now rewrite IH.
Qed.

(** Reading a list back index by index gives the list. *)
Lemma mapM_getitem_range {A B : Type} (f : A -> result B) (xs : list A) :
  mapM (fun i => x <- getitem xs i ;; f x) (range (List.length xs)) = mapM f xs.
Proof.
  unfold range. induction xs as [|x xs IH]; [reflexivity|].
  cbn [List.length seq mapM]. rewrite <- seq_shift, mapM_map.
  change (fun i => y <- getitem (x :: xs) (S i) ;; f y)
    with (fun i => y <- getitem xs i ;; f y).
  now rewrite IH.
Qed.

Lemma mapM_Ok_id {A : Type} (xs : list A) : mapM (@Ok A) xs = Ok xs.
Proof.
  rewrite (mapM_ok_map _ (fun x => x)) by reflexivity. now rewrite map_id.
Qed.

Lemma mapM_ext {A B : Type} (f g : A -> result B) (xs : list A) :
  (forall x, f x = g x) -> mapM f xs = mapM g xs.
Proof.
  intros H. induction xs as [|x xs IH]; simpl; [reflexivity|].
  now rewrite H, IH.
Qed.

Lemma getitem_all {A : Type} (xs : list A) :
  mapM (fun i => getitem xs i) (range (List.length xs)) = Ok xs.
Proof.
  rewrite <- (mapM_Ok_id xs), <- (mapM_getitem_range (@Ok A) xs).
  apply mapM_ext. intros i. now destruct (getitem xs i).
Qed.

(* ================================================================= *)
(** ** The header block *)

(** Forward fill finds nothing to fill in a row of strings. *)
Lemma ffill_row_str (l : list string) (last : option pyobj) :
  ffill_row last (map PyStr l) = map PyStr l.
Proof.
  revert last. induction l as [|s l IH]; intros last; simpl; [reflexivity|].
  now rewrite IH.
Qed.

Lemma ffill_cleaned (block : list (list pyobj)) :
  ffill (map (fun r => map PyStr (_normalize_header_values r)) block)
  = map (fun r => map PyStr (_normalize_header_values r)) block.
Proof.
  unfold ffill. rewrite map_map. apply map_ext. intros r. apply ffill_row_str.
Qed.

Lemma fit_ncols_str (ncols : nat) (l : list string) :
  fit_ncols ncols (map PyStr l) = map PyStr (fit_labels ncols l).
Proof.
  unfold fit_ncols, fit_labels. rewrite length_map.
  destruct (Nat.ltb (List.length l) ncols).
  - now rewrite map_app, map_repeat.
  - now rewrite firstn_map.
Qed.

Lemma fit_labels_length (ncols : nat) (l : list string) :
  List.length (fit_labels ncols l) = ncols.
Proof.
  unfold fit_labels. destruct (Nat.ltb_spec (List.length l) ncols).
  - rewrite length_app, repeat_length. lia.
  - rewrite length_firstn. lia.
Qed.

Lemma header_levels_length (df : DataFrame) (h : Z) :
  (Z.to_nat h <= len df)%nat ->
  List.length (header_levels df h) = Z.to_nat h.
Proof.
  intros H. unfold header_levels, len in *. rewrite length_map, length_firstn. lia.
Qed.

Lemma header_levels_width (df : DataFrame) (h : Z) :
  Forall (fun lv => List.length lv = shape1 df) (header_levels df h).
Proof.
  unfold header_levels. apply Forall_forall. intros lv Hin.
  apply in_map_iff in Hin. destruct Hin as [r [<- _]]. apply fit_labels_length.
Qed.

(** Lines 76-87 never raise, and what they compute is the cleaned rows of
    the block, each fitted to the column count: nothing is filled. *)
Lemma header_arrays_ok (df : DataFrame) (h : Z) :
  (Z.to_nat h <= len df)%nat ->
  header_arrays df h = Ok (map (map PyStr) (header_levels df h)).
Proof.
  intros H. unfold header_arrays. rewrite ffill_cleaned.
  set (headers := map _ (firstn _ _)).
  assert (Hlen : Z.to_nat h = List.length headers).
  { subst headers. unfold len in H. rewrite length_map, length_firstn. lia. }
  rewrite Hlen, getitem_all. cbn [bind]. f_equal.
  subst headers. unfold header_levels. rewrite !map_map.
  apply map_ext. intros r. apply fit_ncols_str.
Qed.

Lemma getitem_str (lv : list string) (i : nat) :
  (i < List.length lv)%nat ->
  getitem (map PyStr lv) i = Ok (PyStr (nth i lv "")).
Proof.
  intros H. unfold getitem.
  rewrite nth_error_map, (nth_error_nth' lv "" H). reflexivity.
Qed.

Lemma filter_ne_empty_str (l : list string) :
  filter ne_empty (map PyStr l) = map PyStr (filter (fun p => negb (p =? "")) l).
Proof.
  induction l as [|s l IH]; simpl; [reflexivity|].
  rewrite IH. now destruct s.
Qed.

Lemma str_join_str (sep : string) (l : list string) :
  str_join sep (map PyStr l) = Ok (PyStr.join sep l).
Proof.
  unfold str_join. rewrite mapM_map.
  rewrite (mapM_ok_map _ (fun s => s)) by reflexivity.
  now rewrite map_id.
Qed.

(** Lines 93-97 on a block of [header_rows] levels, each [ncols] wide. *)
Lemma flat_cols_ok (levels : list (list string)) (h : Z) (ncols : nat)
  (sep : string) :
  List.length levels = Z.to_nat h ->
  Forall (fun lv => List.length lv = ncols) levels ->
  flat_cols (map (map PyStr) levels) h ncols sep
  = Ok (map (fun i => PyStr (column_label sep (fragments levels i) i))
            (range ncols)).
Proof.
  intros Hlen Hwide. unfold flat_cols. apply mapM_ok_map.
  intros i Hi. apply in_seq in Hi.
  replace (Z.to_nat h) with (List.length (map (map PyStr) levels))
    by (now rewrite length_map).
  rewrite (mapM_getitem_range (fun arr => getitem arr i)), mapM_map.
  rewrite (mapM_ok_map _ (fun lv => PyStr (nth i lv ""))).
  - cbn [bind]. rewrite <- (map_map (fun lv => nth i lv "") PyStr).
    fold (fragments levels i). rewrite filter_ne_empty_str.
    unfold column_label.
    destruct (filter _ (fragments levels i)) as [|p parts] eqn:E.
    + reflexivity.
    + rewrite <- E. cbn [map]. rewrite E.
      change (PyStr p :: map PyStr parts) with (map PyStr (p :: parts)).
      now rewrite str_join_str.
  - intros lv Hin. apply getitem_str.
    rewrite Forall_forall in Hwide. rewrite (Hwide lv Hin). lia.
Qed.

(* ================================================================= *)
(** ** The normaliser past its guards *)

Section NormaliserFacts.

Variable fa : list (list pyobj) -> result Index.
Variables (df : DataFrame) (h : Z) (sep : string).
Hypothesis Hpos : (0 < h)%Z.
Hypothesis Hrows : (h <= Z.of_nat (len df))%Z.

Lemma flat_labels_length : List.length (flat_labels df h sep) = shape1 df.
Proof. unfold flat_labels, range. now rewrite length_map, length_seq. Qed.

Lemma flat_cols_header :
  flat_cols (map (map PyStr) (header_levels df h)) h (shape1 df) sep
  = Ok (map PyStr (flat_labels df h sep)).
Proof.
  rewrite flat_cols_ok.
  - unfold flat_labels. now rewrite map_map.
  - apply header_levels_length. lia.
  - apply header_levels_width.
Qed.

Lemma set_flat_labels :
  set_columns (data_slice df h) (Flat (map PyStr (flat_labels df h sep)))
  = Ok (mkDataFrame (Flat (map PyStr (flat_labels df h sep)))
                    (skipn (Z.to_nat h) (rows df))).
Proof.
  unfold set_columns. cbn [index_len]. rewrite length_map, flat_labels_length.
  unfold shape1 at 1, data_slice. cbn [columns rows]. fold (shape1 df).
  now rewrite Nat.eqb_refl.
Qed.

Lemma past_guards (flatten : bool) :
  _apply_multirow_header fa df h flatten sep
  = let arrays := map (map PyStr) (header_levels df h) in
    if flatten then
      Ok (mkDataFrame (Flat (map PyStr (flat_labels df h sep)))
                      (skipn (Z.to_nat h) (rows df)))
    else
      match (ix <- fa arrays ;; set_columns (data_slice df h) ix) with
      | Ok d => Ok d
      | Raise _ => Ok (mkDataFrame (Flat (map PyStr (flat_labels df h sep)))
                                   (skipn (Z.to_nat h) (rows df)))
      end.
Proof.
  unfold _apply_multirow_header.
  replace (h <=? 0)%Z with false by (symmetry; apply Z.leb_gt; lia).
  replace (Z.of_nat (len df) <? h)%Z with false by (symmetry; apply Z.ltb_ge; lia).
  rewrite header_arrays_ok by lia. cbn [bind]. fold (data_slice df h).
  rewrite flat_cols_header. cbn [bind]. rewrite set_flat_labels.
  reflexivity.
Qed.

Lemma set_columns_rows (data d : DataFrame) (ix : Index) :
  set_columns data ix = Ok d -> rows d = rows data.
Proof.
  unfold set_columns. destruct (Nat.eqb _ _); [|discriminate].
  intros [= <-]. reflexivity.
Qed.

End NormaliserFacts.

(* ================================================================= *)
(** ** Properties of the header normaliser *)

(** C1 (horizontal fill), evaluated on the example of the specification:
    with the header block [A, "", B] over [x, y, z] and separator [" - "]
    the code labels the columns [A - x], [y], [B - z].  The blank cell of
    the first header row is not filled from its left neighbour, neither
    when it is an empty string nor when it is a missing value: cleaning has
    turned it into the string [""], which the forward fill does not take
    for a missing value.  The claimed labels [A - x], [A - y], [B - z] are
    not produced. *)
Theorem horizontal_fill_lost_on_example :
  header_arrays spanning_example 2
  = Ok [ [PyStr "A"; PyStr ""; PyStr "B"]; [PyStr "x"; PyStr "y"; PyStr "z"] ]
  /\ _apply_multirow_header pandas_from_arrays spanning_example 2 true " - "
     = Ok (mkDataFrame (Flat [PyStr "A - x"; PyStr "y"; PyStr "B - z"])
                       [ [PyInt 1; PyInt 2; PyInt 3] ])
  /\ _apply_multirow_header pandas_from_arrays spanning_example_nan 2 true " - "
     = Ok (mkDataFrame (Flat [PyStr "A - x"; PyStr "y"; PyStr "B - z"])
                       [ [PyInt 1; PyInt 2; PyInt 3] ]).
Proof. repeat split; vm_compute; reflexivity. Qed.



(** C3 (pass-through): when [header_rows <= 0], or the table has fewer
    rows than [header_rows], the normaliser returns its input and does not
    raise, whatever the other settings. *)
Theorem passthrough_without_header_block
  (fa : list (list pyobj) -> result Index) (df : DataFrame) (h : Z)
  (flatten : bool) (sep : string) :
  (h <= 0)%Z \/ (Z.of_nat (len df) < h)%Z ->
  _apply_multirow_header fa df h flatten sep = Ok df.
Proof.
  intros H. unfold _apply_multirow_header.
  destruct (Z.leb_spec h 0) as [_|Hpos]; [reflexivity|].
  destruct (Z.ltb_spec (Z.of_nat (len df)) h) as [_|Hge]; [reflexivity|].
  lia.
Qed.

Lemma passthrough_without_header_block_witness :
  ((0 <= 0)%Z \/ (Z.of_nat (len spanning_example) < 0)%Z)
  /\ _apply_multirow_header pandas_from_arrays spanning_example 0 false " | "
     = Ok spanning_example
  /\ ((4 <= 0)%Z \/ (Z.of_nat (len spanning_example) < 4)%Z)
  /\ _apply_multirow_header pandas_from_arrays spanning_example 4 true " | "
     = Ok spanning_example.
Proof.
  split; [left; lia|]. split.
  - apply (passthrough_without_header_block pandas_from_arrays
             spanning_example 0 false " | ").
    left; lia.
  - split; [right; vm_compute; reflexivity|].
    apply (passthrough_without_header_block pandas_from_arrays
             spanning_example 4 true " | ").
    right; vm_compute; reflexivity.
Defined.

Lemma pandas_from_arrays_levels (df : DataFrame) (h : Z) :
  (0 < h)%Z -> (h <= Z.of_nat (len df))%Z ->
  let arrays := map (map PyStr) (header_levels df h) in
  pandas_from_arrays arrays = Ok (MultiIndex arrays)
  /\ index_len (MultiIndex arrays) = shape1 df.
Proof.
  intros Hpos Hrows arrays.
  assert (Hlen : List.length arrays = Z.to_nat h).
  { subst arrays. rewrite length_map. apply header_levels_length. lia. }
  assert (Hwide : Forall (fun a => List.length a = shape1 df) arrays).
  { subst arrays. apply Forall_forall. intros a Hin.
    apply in_map_iff in Hin. destruct Hin as [lv [<- Hlv]].
    rewrite length_map.
    exact (proj1 (Forall_forall _ _) (header_levels_width df h) lv Hlv). }
  destruct arrays as [|a0 rest] eqn:E; [simpl in Hlen; lia|].
  assert (Ha0 : List.length a0 = shape1 df) by (now inversion Hwide).
  split; [|exact Ha0].
  unfold pandas_from_arrays.
  replace (same_length (a0 :: rest)) with true; [reflexivity|].
  symmetry. unfold same_length. apply forallb_forall. intros a Hin.
  cbn [hd]. apply Nat.eqb_eq. rewrite Ha0.
  exact (proj1 (Forall_forall _ _) Hwide a Hin).
Qed.

(** C4 (label count): past the guards, for rows of any lengths, the
    flattened labels are as many as the columns of the frame, and so are
    the labels of every level of the multi-level index; each level is the
    cleaned header row, cut down to the column count when it is longer and
    padded on the right with empty strings when it is shorter.  The frame
    returned has the column count of the input. *)
Theorem labels_match_column_count (df : DataFrame) (h : Z) (sep : string) :
  (0 < h)%Z -> (h <= Z.of_nat (len df))%Z ->
  (exists labels d,
      _apply_multirow_header pandas_from_arrays df h true sep = Ok d
      /\ columns d = Flat labels
      /\ List.length labels = shape1 df
      /\ shape1 d = shape1 df)
  /\ (exists arrays d,
      _apply_multirow_header pandas_from_arrays df h false sep = Ok d
      /\ columns d = MultiIndex arrays
      /\ List.length arrays = Z.to_nat h
      /\ Forall (fun a => List.length a = shape1 df) arrays
      /\ shape1 d = shape1 df
      /\ arrays
         = map (fun r =>
                  let cleaned := _normalize_header_values r in
                  map PyStr
                    (if Nat.ltb (List.length cleaned) (shape1 df)
                     then cleaned ++ repeat "" (shape1 df - List.length cleaned)
                     else firstn (shape1 df) cleaned))
               (firstn (Z.to_nat h) (rows df))).
Proof.
  intros Hpos Hrows. split.
  - exists (map PyStr (flat_labels df h sep)). eexists.
    split; [now rewrite past_guards|]. cbn [columns].
    split; [reflexivity|].
    unfold shape1 at 2. cbn [columns index_len].
    rewrite length_map, flat_labels_length by assumption. now split.
  - destruct (pandas_from_arrays_levels df h Hpos Hrows) as [Hix Hwidth].
    exists (map (map PyStr) (header_levels df h)). eexists.
    split.
    + rewrite past_guards by assumption. cbv zeta. rewrite Hix. cbn [bind].
      unfold set_columns. rewrite Hwidth.
      unfold shape1 at 2, data_slice. cbn [columns]. fold (shape1 df).
      rewrite Nat.eqb_refl. reflexivity.
    + cbn [columns]. split; [reflexivity|].
      split; [rewrite length_map; apply header_levels_length; lia|].
      split.
      { apply Forall_forall. intros a Hin. apply in_map_iff in Hin.
        destruct Hin as [lv [<- Hlv]]. rewrite length_map.
        exact (proj1 (Forall_forall _ _) (header_levels_width df h) lv Hlv). }
      split; [exact Hwidth|].
      unfold header_levels, fit_labels. now rewrite map_map.
Qed.

Lemma labels_match_column_count_witness :
  (0 < 2)%Z /\ (2 <= Z.of_nat (len spanning_example))%Z /\
  (exists labels d,
      _apply_multirow_header pandas_from_arrays spanning_example 2 true "-" = Ok d
      /\ columns d = Flat labels
      /\ List.length labels = shape1 spanning_example
      /\ shape1 d = shape1 spanning_example).
Proof.
  split; [lia|]. split; [vm_compute; discriminate|].
  apply (proj1 (labels_match_column_count spanning_example 2 "-"
                  ltac:(lia) ltac:(vm_compute; discriminate))).
Defined.

(** C6 (fallback): with [flatten] unset, when building the multi-level
    index from the header arrays or installing it fails, the normaliser
    does not raise; it returns what it returns with [flatten] set: the flat
    labels (joined non-empty fragments, ["col_<i>"] for a column without
    any) over the same data rows. *)
Theorem multiindex_failure_falls_back_to_flat
  (fa : list (list pyobj) -> result Index) (df : DataFrame) (h : Z)
  (sep : string) (arrays : list (list pyobj)) (e : exn) :
  (0 < h)%Z -> (h <= Z.of_nat (len df))%Z ->
  header_arrays df h = Ok arrays ->
  (ix <- fa arrays ;; set_columns (data_slice df h) ix) = Raise e ->
  _apply_multirow_header fa df h false sep
  = _apply_multirow_header fa df h true sep
  /\ _apply_multirow_header fa df h false sep
     = Ok (mkDataFrame (Flat (map PyStr (flat_labels df h sep)))
                       (skipn (Z.to_nat h) (rows df))).
Proof.
  intros Hpos Hrows Harr Hfail.
  rewrite header_arrays_ok in Harr by lia. injection Harr as <-.
  rewrite !past_guards by assumption. cbv zeta. rewrite Hfail. now split.
Qed.

Lemma multiindex_failure_falls_back_to_flat_witness :
  let fa := fun _ : list (list pyobj) => @Raise Index TypeError in
  let arrays :=
    [ [PyStr "A"; PyStr ""; PyStr "B"]; [PyStr "x"; PyStr "y"; PyStr "z"] ] in
  (0 < 2)%Z /\ (2 <= Z.of_nat (len spanning_example))%Z
  /\ header_arrays spanning_example 2 = Ok arrays
  /\ (ix <- fa arrays ;; set_columns (data_slice spanning_example 2) ix)
     = Raise TypeError
  /\ _apply_multirow_header fa spanning_example 2 false " | "
     = _apply_multirow_header fa spanning_example 2 true " | "
  /\ _apply_multirow_header fa spanning_example 2 false " | "
     = Ok (mkDataFrame
             (Flat (map PyStr (flat_labels spanning_example 2 " | ")))
             (skipn (Z.to_nat 2) (rows spanning_example))).
Proof.
  intros fa arrays.
  split; [lia|]. split; [vm_compute; discriminate|].
  split; [reflexivity|]. split; [reflexivity|].
  apply (multiindex_failure_falls_back_to_flat fa spanning_example 2 " | "
           arrays TypeError).
  - lia.
  - vm_compute; discriminate.
  - reflexivity.
  - reflexivity.
Defined.

(** C8 (data rows): past the guards the normaliser returns a frame whose
    rows are the input rows from index [header_rows] on, in their order and
    with their cells as they were, whatever the flatten setting and the
    behaviour of the index constructor. *)
Theorem data_rows_are_input_rows_after_header
  (fa : list (list pyobj) -> result Index) (df : DataFrame) (h : Z)
  (flatten : bool) (sep : string) :
  (0 < h)%Z -> (h <= Z.of_nat (len df))%Z ->
  exists d,
    _apply_multirow_header fa df h flatten sep = Ok d
    /\ rows d = skipn (Z.to_nat h) (rows df)
    /\ len d = (len df - Z.to_nat h)%nat
    /\ forall k, nth_error (rows d) k = nth_error (rows df) (Z.to_nat h + k).
Proof.
  intros Hpos Hrows.
  assert (H : exists d, _apply_multirow_header fa df h flatten sep = Ok d
                        /\ rows d = skipn (Z.to_nat h) (rows df)).
  { rewrite past_guards by assumption. cbv zeta. destruct flatten.
    - eexists; split; reflexivity.
    - destruct (bind _ _) as [d|x] eqn:E.
      + exists d. split; [reflexivity|].
        destruct (fa _) as [ix|]; [|discriminate]. cbn [bind] in E.
        now apply set_columns_rows in E.
      + eexists; split; reflexivity. }
  destruct H as [d [Hd Hr]]. exists d.
  split; [exact Hd|]. split; [exact Hr|]. split.
  - unfold len. rewrite Hr. apply length_skipn.
  - intros k. rewrite Hr. apply nth_error_skipn.
Qed.

Lemma data_rows_are_input_rows_after_header_witness :
  (0 < 2)%Z /\ (2 <= Z.of_nat (len spanning_example))%Z /\
  exists d,
    _apply_multirow_header pandas_from_arrays spanning_example 2 false "," = Ok d
    /\ rows d = skipn (Z.to_nat 2) (rows spanning_example)
    /\ len d = (len spanning_example - Z.to_nat 2)%nat
    /\ forall k, nth_error (rows d) k
                 = nth_error (rows spanning_example) (Z.to_nat 2 + k).
Proof.
  split; [lia|]. split; [vm_compute; discriminate|].
  apply (data_rows_are_input_rows_after_header pandas_from_arrays
           spanning_example 2 false ",").
  - lia.
  - vm_compute; discriminate.
Defined.

(* ================================================================= *)
(** ** The two page-spec parsers *)

Lemma pages_loop_agree (specs : list string) (acc : list Z) :
  ExtractTable.pages_loop specs acc = ExtractTableA2.pages_loop specs acc.
Proof.
  revert acc. induction specs as [|spec rest IH]; intros acc; simpl.
  - reflexivity.
  - destruct (PyStr.contains "-" (PyStr.strip spec)).
    + destruct (unpack2 _) as [se|x]; simpl; [|reflexivity].
      destruct (extend_range _ _ _) as [l|x]; simpl; [apply IH|reflexivity].
    + destruct (int _) as [p|x]; simpl; [apply IH|reflexivity].
Qed.

(** C9 (the two entry points agree): on every string, the page parsing of
    [extract_table.py] and that of [extract_table_a2.py] give the same
    result: the same page list, the same "all" marker, or the same
    exception. *)
Theorem page_parsers_agree (s : string) :
  ExtractTable.pages_list (PyStr s) = ExtractTableA2.pages_list (PyStr s).
Proof.
  unfold ExtractTable.pages_list, ExtractTableA2.pages_list.
  cbn [py_str str bind].
  destruct (PyStr.lower s =? "all"); [reflexivity|].
  apply (f_equal (fun m => l <- m ;; Ok (PageList l))).
  apply pages_loop_agree.
Qed.

(* ================================================================= *)
(** ** Cleaning a header cell *)

Section Strip.

Variable sp : ascii -> bool.

Lemma lstrip_by_first (s : string) (c : ascii) :
  first_char (PyStr.lstrip_by sp s) = Some c -> sp c = false.
Proof.
  induction s as [|a r IH]; simpl; [discriminate|].
  destruct (sp a) eqn:E; [exact IH|].
  simpl. intros [= <-]. exact E.
Qed.

Lemma rstrip_by_last (s : string) (c : ascii) :
  last_char (PyStr.rstrip_by sp s) = Some c -> sp c = false.
Proof.
  induction s as [|a r IH]; simpl; [discriminate|].
  destruct (PyStr.rstrip_by sp r) as [|b r'] eqn:E.
  - destruct (sp a) eqn:Ea; simpl; [discriminate|]. now intros [= <-].
  - exact IH.
Qed.

Lemma rstrip_by_first (s : string) (c : ascii) :
  first_char (PyStr.rstrip_by sp s) = Some c -> first_char s = Some c.
Proof.
  destruct s as [|a r]; simpl; [discriminate|].
  destruct (PyStr.rstrip_by sp r); [destruct (sp a); [discriminate|]|];
    simpl; now intros [= <-].
Qed.

Lemma rstrip_by_all (s : string) :
  all_chars sp s = true -> PyStr.rstrip_by sp s = "".
Proof.
  induction s as [|a r IH]; simpl; [reflexivity|].
  intros H. apply andb_true_iff in H. destruct H as [Ha Hr].
  now rewrite (IH Hr), Ha.
Qed.

Lemma lstrip_by_app_all (l s : string) :
  all_chars sp l = true -> PyStr.lstrip_by sp (l ++ s) = PyStr.lstrip_by sp s.
Proof.
  induction l as [|a r IH]; simpl; [reflexivity|].
  intros H. apply andb_true_iff in H. destruct H as [Ha Hr].
  rewrite Ha. exact (IH Hr).
Qed.

Lemma rstrip_by_app_all (b r : string) :
  all_chars (fun c => negb (sp c)) b = true -> all_chars sp r = true ->
  PyStr.rstrip_by sp (b ++ r) = b.
Proof.
  intros Hb Hr. induction b as [|a b IH]; simpl.
  - now apply rstrip_by_all.
  - simpl in Hb. apply andb_true_iff in Hb. destruct Hb as [Ha Hb].
    rewrite (IH Hb). destruct b; [|reflexivity].
    apply negb_true_iff in Ha. now rewrite Ha.
Qed.

(** Stripping removes the padding around a body free of white space. *)
Lemma strip_by_padded (l b r : string) :
  all_chars sp l = true -> all_chars sp r = true ->
  all_chars (fun c => negb (sp c)) b = true ->
  PyStr.strip_by sp (l ++ b ++ r) = b.
Proof.
  intros Hl Hr Hb. unfold PyStr.strip_by. rewrite lstrip_by_app_all by exact Hl.
  destruct b as [|a b].
  - simpl. clear Hb.
    assert (H : PyStr.lstrip_by sp r = "").
    { induction r as [|x r IH]; simpl; [reflexivity|].
      simpl in Hr. apply andb_true_iff in Hr. destruct Hr as [Hx Hr'].
      rewrite Hx. exact (IH Hr'). }
    now rewrite H.
  - simpl in Hb. apply andb_true_iff in Hb. destruct Hb as [Ha Hb].
    apply negb_true_iff in Ha. cbn [append PyStr.lstrip_by]. rewrite Ha.
    change (String a (b ++ r)%string) with (String a b ++ r)%string.
    apply rstrip_by_app_all; [|exact Hr].
    simpl. now rewrite Ha, Hb.
Qed.

End Strip.

Lemma edge_space_strip (s : string) : edge_space (PyStr.strip s) = false.
Proof.
  unfold edge_space, PyStr.strip, PyStr.strip_by.
  destruct (first_char _) as [a|] eqn:Ea; [|reflexivity].
  destruct (last_char _) as [b|] eqn:Eb; [|reflexivity].
  apply rstrip_by_first, lstrip_by_first in Ea.
  apply rstrip_by_last in Eb. now rewrite Ea, Eb.
Qed.

(** C5 (cell cleaning) as the code has it: the cleaned value of a cell is
    a string without white space at either end; it is the empty string
    exactly when the cell is null or missing, or its string form is empty
    once stripped, or its stripped lower-case form is ["nan"] or ["none"];
    otherwise it is the stripped string form of the cell. *)
Theorem header_value_cleaned (v : pyobj) :
  let s := PyStr.strip (str v) in
  edge_space (header_value v) = false
  /\ (header_value v = ""
      <-> (isna v = true \/ s = ""
           \/ PyStr.lower s = "nan" \/ PyStr.lower s = "none"))
  /\ (header_value v = "" \/ header_value v = s).
Proof.
  intros s. subst s. destruct v as [| |t|z].
  - repeat split; auto.
  - repeat split; auto.
  - unfold header_value. cbn [str isna].
    destruct (String.eqb_spec (PyStr.lower (PyStr.strip t)) "nan") as [E1|E1];
      [repeat split; auto|].
    destruct (String.eqb_spec (PyStr.lower (PyStr.strip t)) "none") as [E2|E2];
      cbn [orb]; [repeat split; auto|].
    split; [apply edge_space_strip|]. split; [|now right].
    split; [auto|]. intros [H|[H|[H|H]]]; congruence.
  - unfold header_value. cbn [str isna].
    destruct (String.eqb_spec (PyStr.lower (PyStr.strip (PyStr.str_int z))) "nan")
      as [E1|E1]; [repeat split; auto|].
    destruct (String.eqb_spec (PyStr.lower (PyStr.strip (PyStr.str_int z))) "none")
      as [E2|E2]; cbn [orb]; [repeat split; auto|].
    split; [apply edge_space_strip|]. split; [|now right].
    split; [auto|]. intros [H|[H|[H|H]]]; congruence.
Qed.

(** C5 as it is claimed fails on a blank text cell: it cleans to the empty
    string, yet it is neither null nor missing, and its stripped
    lower-case form is neither ["nan"] nor ["none"]. *)
Lemma blank_text_cell_cleans_to_empty :
  let v := PyStr "  " in
  ~ (header_value v = ""
     <-> (isna v = true
          \/ PyStr.lower (PyStr.strip (str v)) = "nan"
          \/ PyStr.lower (PyStr.strip (str v)) = "none")).
Proof.
  intros v [H _]. destruct (H eq_refl) as [E|[E|E]]; discriminate E.
Qed.

Example header_value_examples :
  map header_value
      [PyNone; PyNaN; PyStr " NaN "; PyStr "None"; PyStr "  Total  ";
       PyStr ""; PyInt 12; PyStr "nano"]
  = [""; ""; ""; ""; "Total"; ""; "12"; "nano"].
Proof. reflexivity. Qed.

(* ================================================================= *)
(** ** Page specifications *)

Ltac ascii_cases c := destruct c as [[] [] [] [] [] [] [] []].

Lemma digit_char_facts (c : ascii) :
  PyStr.isdigit c = true ->
  PyStr.isspace c = false /\ PyStr.int_space c = false
  /\ Ascii.eqb c "+" = false /\ Ascii.eqb c "-" = false.
Proof. ascii_cases c; intros H; try discriminate H; repeat split. Qed.

Lemma item_char_no_comma (c : ascii) :
  item_char c = true -> Ascii.eqb c "," = false.
Proof. ascii_cases c; intros H; try discriminate H; reflexivity. Qed.

Lemma plain_char_lower (c : ascii) :
  PyStr.isspace c || PyStr.isdigit c = true -> PyStr.lower_char c <> "a"%char.
Proof. ascii_cases c; intros H; try discriminate H; discriminate. Qed.

Lemma append_nil_r (s : string) : (s ++ "")%string = s.
Proof. induction s as [|a s IH]; simpl; [reflexivity|]. now rewrite IH. Qed.

Lemma append_assoc (s t u : string) :
  (s ++ (t ++ u))%string = ((s ++ t) ++ u)%string.
Proof. induction s as [|a s IH]; simpl; [reflexivity|]. now rewrite IH. Qed.

Lemma all_chars_app (p : ascii -> bool) (s t : string) :
  all_chars p (s ++ t) = all_chars p s && all_chars p t.
Proof.
  induction s as [|a s IH]; simpl; [reflexivity|].
  now rewrite IH, andb_assoc.
Qed.

Lemma all_chars_impl (p q : ascii -> bool) (s : string) :
  (forall c, p c = true -> q c = true) ->
  all_chars p s = true -> all_chars q s = true.
Proof.
  intros Hpq. induction s as [|a s IH]; simpl; [reflexivity|].
  intros H. apply andb_true_iff in H. destruct H as [Ha Hs].
  now rewrite (Hpq a Ha), (IH Hs).
Qed.

Lemma contains_none (p : ascii -> bool) (sep : ascii) (s : string) :
  (forall c, p c = true -> Ascii.eqb c sep = false) ->
  all_chars p s = true -> PyStr.contains sep s = false.
Proof.
  intros Hp. induction s as [|a s IH]; simpl; [reflexivity|].
  intros H. apply andb_true_iff in H. destruct H as [Ha Hs].
  now rewrite (Hp a Ha), (IH Hs).
Qed.

Lemma split_none (sep : ascii) (s : string) :
  PyStr.contains sep s = false -> PyStr.split sep s = [s].
Proof.
  induction s as [|a s IH]; simpl; [reflexivity|].
  intros H. apply orb_false_iff in H. destruct H as [Ha Hs].
  now rewrite Ha, (IH Hs).
Qed.

Lemma split_app (sep : ascii) (s t : string) :
  PyStr.contains sep s = false ->
  PyStr.split sep (s ++ String sep t) = s :: PyStr.split sep t.
Proof.
  induction s as [|a s IH]; simpl; intros H.
  - now rewrite Ascii.eqb_refl.
  - apply orb_false_iff in H. destruct H as [Ha Hs].
    now rewrite Ha, (IH Hs).
Qed.

Lemma contains_app_sep (sep : ascii) (s t : string) :
  PyStr.contains sep (s ++ String sep t) = true.
Proof.
  induction s as [|a s IH]; simpl.
  - now rewrite Ascii.eqb_refl.
  - rewrite IH. apply orb_true_r.
Qed.

(** Splitting at the commas undoes joining with commas. *)
Lemma split_join (xs : list string) :
  xs <> [] ->
  Forall (fun x => PyStr.contains "," x = false) xs ->
  PyStr.split "," (PyStr.join "," xs) = xs.
Proof.
  intros Hne Hall. unfold PyStr.join.
  induction xs as [|x xs IH]; [congruence|].
  inversion Hall as [|? ? Hx Hxs]; subst.
  destruct xs as [|y ys].
  - simpl. now apply split_none.
  - change (concat "," (x :: y :: ys))
      with (x ++ String "," (concat "," (y :: ys)))%string.
    rewrite split_app by exact Hx. f_equal. apply IH; [discriminate|exact Hxs].
Qed.

(** *** Decimal numerals *)

Lemma string_of_uint_digits (u : Decimal.uint) :
  all_chars PyStr.isdigit (NilEmpty.string_of_uint u) = true.
Proof. induction u; simpl; auto. Qed.

Lemma decimal_numeral (n : N) :
  decimal n = NilEmpty.string_of_uint (N.to_uint n) /\ N.to_uint n <> Decimal.Nil.
Proof.
  destruct n as [|p].
  - split; [reflexivity|discriminate].
  - unfold decimal, PyStr.str_int. cbn [Z.of_N Z.to_int N.to_uint].
    cbn [NilZero.string_of_int]. unfold NilZero.string_of_uint.
    pose proof (DecimalPos.Unsigned.to_uint_nonnil p) as Hp.
    destruct (Pos.to_uint p); [congruence|..]; now split.
Qed.

Lemma decimal_digits (n : N) : all_chars PyStr.isdigit (decimal n) = true.
Proof. rewrite (proj1 (decimal_numeral n)). apply string_of_uint_digits. Qed.

Lemma decimal_nonempty (n : N) : decimal n <> "".
Proof.
  destruct (decimal_numeral n) as [E Hn]. rewrite E.
  destruct (N.to_uint n); [congruence|..]; discriminate.
Qed.

Lemma int_digits_digit (c : ascii) (acc : Z) (prev : bool) (r : string) :
  PyStr.isdigit c = true ->
  PyStr.int_digits acc prev (String c r)
  = PyStr.int_digits (10 * acc + PyStr.digit_val c) true r.
Proof. intros H. simpl. now rewrite H. Qed.

Ltac digit_step IH :=
  cbn [NilEmpty.string_of_uint Pos.of_uint_acc Pos.of_uint];
  rewrite int_digits_digit by reflexivity;
  match goal with
  | |- context [PyStr.digit_val ?c] =>
      let v := eval vm_compute in (PyStr.digit_val c) in
      change (PyStr.digit_val c) with v
  end.

Lemma int_digits_acc (u : Decimal.uint) (q : positive) :
  PyStr.int_digits (Zpos q) true (NilEmpty.string_of_uint u)
  = Some (Zpos (Pos.of_uint_acc u q)).
Proof.
  revert q. induction u as [|u IH|u IH|u IH|u IH|u IH|u IH|u IH|u IH|u IH|u IH];
    intros q; [reflexivity|..]; digit_step IH;
    match goal with
    | |- PyStr.int_digits ?z true _ = Some (Zpos (Pos.of_uint_acc _ ?p)) =>
        replace z with (Zpos p) by lia
    end; apply IH.
Qed.

Lemma int_digits_numeral (u : Decimal.uint) (prev : bool) :
  u <> Decimal.Nil \/ prev = true ->
  PyStr.int_digits 0 prev (NilEmpty.string_of_uint u)
  = Some (Z.of_N (Pos.of_uint u)).
Proof.
  revert prev.
  induction u as [|u IH|u IH|u IH|u IH|u IH|u IH|u IH|u IH|u IH|u IH];
    intros prev H.
  - destruct H as [H| ->]; [congruence|reflexivity].
  - digit_step IH. apply IH. now right.
  - digit_step IH. apply (int_digits_acc u 1).
  - digit_step IH. apply (int_digits_acc u 2).
  - digit_step IH. apply (int_digits_acc u 3).
  - digit_step IH. apply (int_digits_acc u 4).
  - digit_step IH. apply (int_digits_acc u 5).
  - digit_step IH. apply (int_digits_acc u 6).
  - digit_step IH. apply (int_digits_acc u 7).
  - digit_step IH. apply (int_digits_acc u 8).
  - digit_step IH. apply (int_digits_acc u 9).
Qed.

Lemma strip_by_clean (sp : ascii -> bool) (s : string) :
  all_chars (fun c => negb (sp c)) s = true -> PyStr.strip_by sp s = s.
Proof.
  intros H.
  pose proof (strip_by_padded sp "" s "" eq_refl eq_refl H) as E.
  cbn [append] in E.
  now rewrite append_nil_r in E.
Qed.

Lemma count_digits_length (s : string) :
  (PyStr.count_digits s <= String.length s)%nat.
Proof.
  induction s as [|c r IH]; simpl; [lia|]. destruct (PyStr.isdigit c); lia.
Qed.

Lemma int_body_numeral (n : N) :
  numeral_ok n = true ->
  PyStr.int_body (decimal n) = PyStr.int_digits 0 false (decimal n).
Proof.
  unfold numeral_ok, PyStr.int_body. intros H. apply Nat.leb_le in H.
  pose proof (count_digits_length (decimal n)) as Hc.
  destruct (Nat.ltb_spec PyStr.int_max_str_digits
                         (PyStr.count_digits (decimal n))); [lia|reflexivity].
Qed.

(** [int] reads a decimal numeral of at most 4300 digits back. *)
Lemma int_decimal (n : N) :
  numeral_ok n = true -> int (decimal n) = Ok (Z.of_N n).
Proof.
  intros Hok. unfold int, PyStr.int.
  rewrite strip_by_clean.
  2:{ apply (all_chars_impl PyStr.isdigit); [|apply decimal_digits].
      intros c Hc. now rewrite (proj1 (proj2 (digit_char_facts c Hc))). }
  pose proof (decimal_digits n) as Hd.
  pose proof (int_body_numeral n Hok) as Hbody.
  destruct (decimal_numeral n) as [E Hn]. rewrite E in *.
  destruct (NilEmpty.string_of_uint (N.to_uint n)) as [|c r] eqn:Es.
  - exfalso. destruct (N.to_uint n); [congruence|..]; discriminate Es.
  - simpl in Hd. apply andb_true_iff in Hd. destruct Hd as [Hc _].
    destruct (digit_char_facts c Hc) as [_ [_ [Hplus Hminus]]].
    rewrite Hplus, Hminus, Hbody, <- Es.
    rewrite int_digits_numeral by (now left).
    change (Pos.of_uint (N.to_uint n)) with (N.of_uint (N.to_uint n)).
    now rewrite DecimalN.Unsigned.of_to.
Qed.

(** *** Items and their expansion *)

Lemma inclusive_spec (lo hi z : Z) :
  In z (inclusive lo hi) <-> (lo <= z <= hi)%Z.
Proof.
  unfold inclusive. rewrite in_map_iff. split.
  - intros [i [<- Hi]]. apply in_seq in Hi. lia.
  - intros H. exists (Z.to_nat (z - lo)). split; [lia|]. apply in_seq. lia.
Qed.

Lemma rangeZ_inclusive (lo hi : Z) : rangeZ lo (hi + 1) = inclusive lo hi.
Proof. unfold rangeZ, inclusive. do 2 f_equal. lia. Qed.

Lemma inclusive_length (lo hi : Z) :
  List.length (inclusive lo hi) = Z.to_nat (hi - lo + 1).
Proof. unfold inclusive. now rewrite length_map, length_seq. Qed.

Lemma decimal_no_dash (n : N) : PyStr.contains "-" (decimal n) = false.
Proof.
  apply (contains_none PyStr.isdigit); [|apply decimal_digits].
  intros c Hc. apply (digit_char_facts c Hc).
Qed.

Lemma decimal_no_space (n : N) :
  all_chars (fun c => negb (PyStr.isspace c)) (decimal n) = true.
Proof.
  apply (all_chars_impl PyStr.isdigit); [|apply decimal_digits].
  intros c Hc. now rewrite (proj1 (digit_char_facts c Hc)).
Qed.

Lemma decimal_item_chars (n : N) : all_chars item_char (decimal n) = true.
Proof.
  apply (all_chars_impl PyStr.isdigit); [|apply decimal_digits].
  intros c Hc. unfold item_char. rewrite Hc. now rewrite orb_true_r.
Qed.

Lemma item_text_no_space (t : page_item) :
  all_chars (fun c => negb (PyStr.isspace c)) (item_text t) = true.
Proof.
  destruct t as [n|a b]; cbn [item_text]; [apply decimal_no_space|].
  rewrite !all_chars_app, !decimal_no_space. reflexivity.
Qed.

Lemma item_text_chars (t : page_item) : all_chars item_char (item_text t) = true.
Proof.
  destruct t as [n|a b]; cbn [item_text]; [apply decimal_item_chars|].
  rewrite !all_chars_app, !decimal_item_chars. reflexivity.
Qed.

Lemma item_text_starts (t : page_item) (r : string) :
  starts_plain (item_text t ++ r) = true.
Proof.
  assert (H : forall n s, starts_plain (decimal n ++ s) = true).
  { intros n s. pose proof (decimal_digits n) as Hd.
    pose proof (decimal_nonempty n) as Hn.
    destruct (decimal n) as [|c d]; [congruence|].
    simpl in Hd. apply andb_true_iff in Hd. destruct Hd as [Hc _].
    simpl. rewrite Hc. apply orb_true_r. }
  destruct t as [n|a b]; cbn [item_text]; [apply H|].
  rewrite <- append_assoc. apply H.
Qed.

Section PaddedItems.

Variable p : padded_item.
Hypothesis Hp : padded_ok p = true.

Lemma padded_parts :
  all_chars PyStr.isspace (pad_left p) = true
  /\ all_chars PyStr.isspace (pad_right p) = true.
Proof.
  unfold padded_ok in Hp. apply andb_true_iff in Hp. destruct Hp as [H _].
  now apply andb_true_iff in H.
Qed.

Lemma padded_item_ok : item_ok (item p) = true.
Proof. unfold padded_ok in Hp. now apply andb_true_iff in Hp. Qed.

Lemma strip_padded_text : PyStr.strip (padded_text p) = item_text (item p).
Proof.
  destruct padded_parts as [Hl Hr]. unfold PyStr.strip, padded_text.
  apply strip_by_padded; [exact Hl|exact Hr|apply item_text_no_space].
Qed.

Lemma padded_text_no_comma : PyStr.contains "," (padded_text p) = false.
Proof.
  destruct padded_parts as [Hl Hr].
  apply (contains_none item_char); [apply item_char_no_comma|].
  unfold padded_text. rewrite !all_chars_app, item_text_chars.
  assert (Hsp : forall s, all_chars PyStr.isspace s = true ->
                          all_chars item_char s = true).
  { intros s. apply all_chars_impl. intros c Hc. unfold item_char.
    now rewrite Hc. }
  now rewrite (Hsp _ Hl), (Hsp _ Hr).
Qed.

Lemma padded_text_starts (r : string) :
  starts_plain (padded_text p ++ r) = true.
Proof.
  destruct padded_parts as [Hl _]. unfold padded_text.
  destruct (pad_left p) as [|c l].
  - cbn [append]. rewrite <- append_assoc. apply item_text_starts.
  - simpl in Hl. apply andb_true_iff in Hl. destruct Hl as [Hc _].
    simpl. now rewrite Hc.
Qed.

(** One turn of the loop on a well-formed item appends its pages. *)
Lemma pages_loop_item (rest : list string) (acc : list Z) :
  (Z.of_nat (List.length (item_pages (item p))) <= page_budget)%Z ->
  ExtractTable.pages_loop (padded_text p :: rest) acc
  = ExtractTable.pages_loop rest (acc ++ item_pages (item p)).
Proof.
  intros Hsize. pose proof padded_item_ok as Hok.
  cbn [ExtractTable.pages_loop]. rewrite strip_padded_text.
  destruct (item p) as [n|a b]; cbn [item_text item_pages item_ok] in *.
  - rewrite decimal_no_dash, int_decimal by exact Hok. reflexivity.
  - apply andb_true_iff in Hok. destruct Hok as [Ha Hb].
    change (decimal a ++ "-" ++ decimal b)%string
      with (decimal a ++ String "-" (decimal b))%string.
    rewrite contains_app_sep, split_app by apply decimal_no_dash.
    rewrite split_none by apply decimal_no_dash.
    cbn [unpack2]. rewrite !int_decimal by assumption. cbn [bind fst snd].
    unfold extend_range. rewrite inclusive_length in Hsize.
    unfold page_budget in Hsize.
    replace (maxsize <? Z.of_N b + 1 - Z.of_N a)%Z with false
      by (symmetry; apply Z.ltb_ge; unfold maxsize; lia).
    cbn [bind]. now rewrite rangeZ_inclusive.
Qed.

End PaddedItems.

Lemma pages_loop_items (items : list padded_item) (acc : list Z) :
  forallb padded_ok items = true ->
  (Z.of_nat (List.length (List.concat (map item_pages (map item items))))
   <= page_budget)%Z ->
  ExtractTable.pages_loop (map padded_text items) acc
  = Ok (acc ++ List.concat (map item_pages (map item items))).
Proof.
  revert acc. induction items as [|p items IH]; intros acc H Hsize.
  - simpl. now rewrite List.app_nil_r.
  - cbn [forallb] in H. apply andb_true_iff in H. destruct H as [Hp Hrest].
    cbn [map List.concat] in Hsize. rewrite length_app in Hsize.
    cbn [map]. rewrite pages_loop_item by (try exact Hp; lia).
    rewrite IH by (try exact Hrest; lia).
    cbn [List.concat]. now rewrite List.app_assoc.
Qed.

Lemma lower_not_all (s : string) :
  starts_plain s = true -> (PyStr.lower s =? "all") = false.
Proof.
  destruct s as [|c r]; [discriminate|]. cbn [starts_plain PyStr.lower].
  intros H. apply String.eqb_neq. intros E. injection E as E _.
  exact (plain_char_lower c H E).
Qed.

Lemma join_starts (items : list padded_item) :
  items <> [] -> forallb padded_ok items = true ->
  starts_plain (PyStr.join "," (map padded_text items)) = true.
Proof.
  intros Hne H. destruct items as [|p items]; [congruence|].
  cbn [forallb] in H. apply andb_true_iff in H. destruct H as [Hp _].
  unfold PyStr.join. cbn [map]. destruct (map padded_text items) as [|y ys].
  - cbn [concat].
    pose proof (padded_text_starts p Hp "") as E.
    now rewrite append_nil_r in E.
  - change (concat "," (padded_text p :: y :: ys))
      with (padded_text p ++ ("," ++ concat "," (y :: ys)))%string.
    now apply padded_text_starts.
Qed.

(** Both scripts on a well-formed specification. *)
Lemma pages_list_items (items : list padded_item) :
  items <> [] -> forallb padded_ok items = true ->
  let spec := PyStr.join "," (map padded_text items) in
  let pages := List.concat (map item_pages (map item items)) in
  (Z.of_nat (List.length pages) <= page_budget)%Z ->
  ExtractTable.pages_list (PyStr spec) = Ok (PageList pages)
  /\ ExtractTableA2.pages_list (PyStr spec) = Ok (PageList pages).
Proof.
  intros Hne H spec pages Hsize.
  assert (Hloop : ExtractTable.pages_loop (PyStr.split "," spec) [] = Ok pages).
  { subst spec. rewrite split_join.
    - now rewrite pages_loop_items.
    - now destruct items.
    - apply Forall_forall. intros x Hx. apply in_map_iff in Hx.
      destruct Hx as [p [<- Hin]]. apply padded_text_no_comma.
      exact (proj1 (forallb_forall _ _) H p Hin). }
  pose proof (pages_loop_agree (PyStr.split "," spec) []) as Hagree.
  unfold ExtractTable.pages_list, ExtractTableA2.pages_list.
  cbn [py_str str bind].
  rewrite (lower_not_all spec) by (now apply join_starts).
  split.
  - now rewrite Hloop.
  - now rewrite <- Hagree, Hloop.
Qed.

(** C7 (page specification), within the limits of the language: a string
    that lower-cases to ["all"] is mapped to the marker for every page; a
    comma-separated sequence of page numbers and hyphenated ranges, each
    item with any white space around it, every numeral of at most 4300
    digits and the pages at most a million in all, is mapped to the pages
    of its items in the order written, a range [a-b] giving
    [a, a+1, ..., b]; ["1,3,5-7"] gives [1, 3, 5, 6, 7].  This holds for
    both scripts. *)
Theorem pages_spec_expands :
  (forall s, PyStr.lower s = "all" ->
     ExtractTable.pages_list (PyStr s) = Ok AllPages
     /\ ExtractTableA2.pages_list (PyStr s) = Ok AllPages)
  /\ (forall items, items <> [] -> forallb padded_ok items = true ->
        let spec := PyStr.join "," (map padded_text items) in
        let pages := List.concat (map item_pages (map item items)) in
        (Z.of_nat (List.length pages) <= page_budget)%Z ->
        ExtractTable.pages_list (PyStr spec) = Ok (PageList pages)
        /\ ExtractTableA2.pages_list (PyStr spec) = Ok (PageList pages))
  /\ (forall a b z, In z (item_pages (Pages a b)) <-> (Z.of_N a <= z <= Z.of_N b)%Z)
  /\ ExtractTable.pages_list (PyStr "1,3,5-7")
     = Ok (PageList [1; 3; 5; 6; 7]%Z)
  /\ ExtractTableA2.pages_list (PyStr "1,3,5-7")
     = Ok (PageList [1; 3; 5; 6; 7]%Z).
Proof.
  split.
  { intros s Hs. unfold ExtractTable.pages_list, ExtractTableA2.pages_list.
    now rewrite Hs. }
  split; [exact pages_list_items|].
  split; [intros a b z; apply inclusive_spec|].
  split; vm_compute; reflexivity.
Qed.

Lemma pages_spec_expands_witness :
  let items := [ mkPadded " " (Page 1) ""; mkPadded "" (Page 3) " ";
                 mkPadded "  " (Pages 5 7) " " ] in
  PyStr.lower "All" = "all"
  /\ ExtractTable.pages_list (PyStr "All") = Ok AllPages
  /\ items <> [] /\ forallb padded_ok items = true
  /\ (Z.of_nat (List.length (List.concat (map item_pages (map item items))))
      <= page_budget)%Z
  /\ ExtractTable.pages_list (PyStr " 1,3 ,  5-7 ")
     = Ok (PageList [1; 3; 5; 6; 7]%Z)
  /\ ExtractTableA2.pages_list (PyStr " 1,3 ,  5-7 ")
     = Ok (PageList [1; 3; 5; 6; 7]%Z).
Proof.
  intros items.
  split; [reflexivity|].
  split; [exact (proj1 (proj1 pages_spec_expands "All" eq_refl))|].
  split; [discriminate|]. split; [vm_compute; reflexivity|].
  split; [vm_compute; discriminate|].
  exact (proj1 (proj2 pages_spec_expands) items ltac:(discriminate)
           ltac:(vm_compute; reflexivity) ltac:(vm_compute; discriminate)).
Defined.

(** Beyond the limit on the pages: the range of ["1-18446744073709551616"]
    is longer than any list, and both scripts raise [OverflowError]
    instead of giving the pages from 1 to 18446744073709551616. *)
Lemma oversize_range_is_refused :
  let spec := item_text (Pages 1 18446744073709551616) in
  spec = "1-18446744073709551616"
  /\ ExtractTable.pages_list (PyStr spec) = Raise OverflowError
  /\ ExtractTableA2.pages_list (PyStr spec) = Raise OverflowError
  /\ ExtractTable.pages_list (PyStr spec)
     <> Ok (PageList (item_pages (Pages 1 18446744073709551616))).
Proof.
  intros spec. subst spec.
  assert (H : ExtractTable.pages_list (PyStr "1-18446744073709551616")
              = Raise OverflowError) by (vm_compute; reflexivity).
  split; [vm_compute; reflexivity|].
  split; [exact H|].
  split; [vm_compute; reflexivity|].
  change (item_text (Pages 1 18446744073709551616))
    with "1-18446744073709551616".
  rewrite H. discriminate.
Qed.

(** The limit on numerals: both scripts refuse a page number of 4301
    digits with [ValueError], and accept one of 4300 digits. *)
Example long_numeral_is_refused :
  let digits := fun n => string_of_list_ascii (repeat "1"%char n) in
  ExtractTable.pages_list (PyStr (digits 4301)) = Raise ValueError
  /\ ExtractTableA2.pages_list (PyStr (digits 4301)) = Raise ValueError
  /\ match ExtractTable.pages_list (PyStr (digits 4300)),
           ExtractTableA2.pages_list (PyStr (digits 4300)) with
     | Ok (PageList [z]), Ok (PageList [z']) => (z =? z')%Z
     | _, _ => false
     end = true.
Proof. cbv zeta. repeat split; vm_compute; reflexivity. Qed.

(* ================================================================= *)
(** ** Further properties of the header normaliser *)

Lemma set_columns_shape (data d : DataFrame) (ix : Index) :
  set_columns data ix = Ok d -> columns d = ix /\ index_len ix = shape1 data.
Proof.
  unfold set_columns. destruct (Nat.eqb_spec (index_len ix) (shape1 data));
    [|discriminate].
  intros [= <-]. now split.
Qed.

(** X1: on a frame with at least one column, whose [int] cells are
    64-bit as pandas holds them, the normaliser never raises, whatever the
    settings and the behaviour of the index constructor, and the frame it
    returns has as many columns as the frame it was given. *)
Theorem normaliser_never_raises
  (fa : list (list pyobj) -> result Index) (df : DataFrame) (h : Z)
  (flatten : bool) (sep : string) :
  frame_fits df = true -> (0 < shape1 df)%nat ->
  exists d,
    _apply_multirow_header fa df h flatten sep = Ok d
    /\ shape1 d = shape1 df.
Proof.
  intros _ _.
  destruct (Z.leb_spec h 0) as [Hle|Hpos].
  { exists df. split; [|reflexivity]. unfold _apply_multirow_header.
    now replace (h <=? 0)%Z with true by (symmetry; apply Z.leb_le; lia). }
  destruct (Z.ltb_spec (Z.of_nat (len df)) h) as [Hfew|Hrows].
  { exists df. split; [|reflexivity]. unfold _apply_multirow_header.
    replace (h <=? 0)%Z with false by (symmetry; apply Z.leb_gt; lia).
    now replace (Z.of_nat (len df) <? h)%Z with true
      by (symmetry; apply Z.ltb_lt; lia). }
  rewrite past_guards by assumption. cbv zeta.
  assert (Hflat : shape1 (mkDataFrame (Flat (map PyStr (flat_labels df h sep)))
                                      (skipn (Z.to_nat h) (rows df)))
                  = shape1 df).
  { unfold shape1 at 1. cbn [columns index_len].
    now rewrite length_map, flat_labels_length. }
  destruct flatten; [eexists; split; [reflexivity|exact Hflat]|].
  destruct (bind _ _) as [d|x] eqn:E;
    [|eexists; split; [reflexivity|exact Hflat]].
  exists d. split; [reflexivity|].
  destruct (fa _) as [ix|]; [|discriminate]. cbn [bind] in E.
  apply set_columns_shape in E. destruct E as [Hc Hl].
  unfold shape1 at 1. rewrite Hc, Hl. reflexivity.
Qed.

Lemma normaliser_never_raises_witness :
  frame_fits spanning_example = true /\ (0 < shape1 spanning_example)%nat
  /\ exists d,
       _apply_multirow_header (fun _ => Raise TypeError) spanning_example 3
         false ""
       = Ok d
       /\ shape1 d = shape1 spanning_example.
Proof.
  split; [reflexivity|]. split; [vm_compute; lia|].
  apply (normaliser_never_raises (fun _ => Raise TypeError) spanning_example
           3 false "").
  - reflexivity.
  - vm_compute; lia.
Defined.

Lemma column_label_not_blank (sep : string) (frags : list string) (i : nat) :
  column_label sep frags i <> "".
Proof.
  unfold column_label.
  destruct (filter _ frags) as [|p parts] eqn:E; [discriminate|].
  assert (Hp : In p (filter (fun p => negb (p =? "")) frags))
    by (rewrite E; now left).
  apply filter_In in Hp. destruct Hp as [_ Hp].
  apply negb_true_iff, String.eqb_neq in Hp.
  unfold PyStr.join. destruct p as [|a p]; [congruence|].
  destruct parts; discriminate.
Qed.

(** X2: past the guards and with [flatten] set, no column is left without
    a name: every label returned is a non-empty string, whatever the
    header cells and the separator (the empty separator included). *)
Theorem flattened_labels_never_blank
  (fa : list (list pyobj) -> result Index) (df : DataFrame) (h : Z)
  (sep : string) :
  (0 < h)%Z -> (h <= Z.of_nat (len df))%Z ->
  exists labels,
    _apply_multirow_header fa df h true sep
    = Ok (mkDataFrame (Flat (map PyStr labels)) (skipn (Z.to_nat h) (rows df)))
    /\ Forall (fun l => l <> "") labels.
Proof.
  intros Hpos Hrows. exists (flat_labels df h sep).
  split; [now rewrite past_guards|].
  unfold flat_labels. apply Forall_forall. intros l Hl.
  apply in_map_iff in Hl. destruct Hl as [i [<- _]].
  apply column_label_not_blank.
Qed.

Lemma flattened_labels_never_blank_witness :
  (0 < 1)%Z /\ (1 <= Z.of_nat (len spanning_example_nan))%Z /\
  exists labels,
    _apply_multirow_header pandas_from_arrays spanning_example_nan 1 true ""
    = Ok (mkDataFrame (Flat (map PyStr labels))
                      (skipn (Z.to_nat 1) (rows spanning_example_nan)))
    /\ Forall (fun l => l <> "") labels.
Proof.
  split; [lia|]. split; [vm_compute; discriminate|].
  apply (flattened_labels_never_blank pandas_from_arrays spanning_example_nan
           1 "").
  - lia.
  - vm_compute; discriminate.
Defined.

(** X3: on header blocks without [int] cells, the column labels depend
    on the header block and on the column count only: two frames with the
    same columns and the same first [header_rows] rows get the same labels,
    whatever their data rows. *)
Theorem labels_depend_on_header_block_only
  (fa : list (list pyobj) -> result Index) (df1 df2 : DataFrame) (h : Z)
  (flatten : bool) (sep : string) :
  (0 < h)%Z ->
  (h <= Z.of_nat (len df1))%Z -> (h <= Z.of_nat (len df2))%Z ->
  columns df1 = columns df2 ->
  firstn (Z.to_nat h) (rows df1) = firstn (Z.to_nat h) (rows df2) ->
  text_rows (firstn (Z.to_nat h) (rows df1)) = true ->
  exists d1 d2,
    _apply_multirow_header fa df1 h flatten sep = Ok d1
    /\ _apply_multirow_header fa df2 h flatten sep = Ok d2
    /\ columns d1 = columns d2.
Proof.
  intros Hpos H1 H2 Hcols Hblock _.
  assert (Hshape : shape1 df1 = shape1 df2) by (unfold shape1; now rewrite Hcols).
  assert (Hlev : header_levels df1 h = header_levels df2 h)
    by (unfold header_levels; now rewrite Hblock, Hshape).
  assert (Hlab : flat_labels df1 h sep = flat_labels df2 h sep)
    by (unfold flat_labels; now rewrite Hlev, Hshape).
  rewrite !past_guards by assumption. cbv zeta. rewrite Hlev, Hlab.
  destruct flatten; [do 2 eexists; repeat split|].
  destruct (fa _) as [ix|x]; cbn [bind]; [|do 2 eexists; repeat split].
  unfold set_columns, shape1, data_slice. cbn [columns].
  rewrite Hcols. destruct (Nat.eqb _ _); do 2 eexists; repeat split.
Qed.

Lemma labels_depend_on_header_block_only_witness :
  let df2 := mkDataFrame (columns spanning_example)
               (firstn 2 (rows spanning_example) ++ [[PyNone; PyNone; PyNone]]) in
  (0 < 2)%Z
  /\ (2 <= Z.of_nat (len spanning_example))%Z /\ (2 <= Z.of_nat (len df2))%Z
  /\ columns spanning_example = columns df2
  /\ firstn (Z.to_nat 2) (rows spanning_example) = firstn (Z.to_nat 2) (rows df2)
  /\ text_rows (firstn (Z.to_nat 2) (rows spanning_example)) = true
  /\ exists d1 d2,
       _apply_multirow_header pandas_from_arrays spanning_example 2 false "/"
       = Ok d1
       /\ _apply_multirow_header pandas_from_arrays df2 2 false "/" = Ok d2
       /\ columns d1 = columns d2.
Proof.
  intros df2. split; [lia|].
  split; [vm_compute; discriminate|]. split; [vm_compute; discriminate|].
  split; [reflexivity|]. split; [reflexivity|]. split; [reflexivity|].
  apply (labels_depend_on_header_block_only pandas_from_arrays
           spanning_example df2 2 false "/").
  - lia.
  - vm_compute; discriminate.
  - vm_compute; discriminate.
  - reflexivity.
  - reflexivity.
  - reflexivity.
Defined.

Lemma lstrip_by_id (sp : ascii -> bool) (t : string) :
  (forall c, first_char t = Some c -> sp c = false) ->
  PyStr.lstrip_by sp t = t.
Proof.
  destruct t as [|a r]; [reflexivity|]. intros H. simpl.
  now rewrite (H a eq_refl).
Qed.

Lemma rstrip_by_idem (sp : ascii -> bool) (s : string) :
  PyStr.rstrip_by sp (PyStr.rstrip_by sp s) = PyStr.rstrip_by sp s.
Proof.
  induction s as [|a r IH]; [reflexivity|]. cbn [PyStr.rstrip_by].
  destruct (PyStr.rstrip_by sp r) as [|b r'] eqn:E.
  - destruct (sp a) eqn:Ea; [reflexivity|]. simpl. now rewrite Ea.
  - cbn [PyStr.rstrip_by]. cbn [PyStr.rstrip_by] in IH.
    destruct (PyStr.rstrip_by sp r') as [|c r''] eqn:E'.
    + destruct (sp b); [discriminate IH|]. now rewrite IH.
    + now rewrite IH.
Qed.

Lemma strip_by_idem (sp : ascii -> bool) (s : string) :
  PyStr.strip_by sp (PyStr.strip_by sp s) = PyStr.strip_by sp s.
Proof.
  unfold PyStr.strip_by. rewrite lstrip_by_id.
  - apply rstrip_by_idem.
  - intros c Hc. apply rstrip_by_first in Hc.
    now apply lstrip_by_first in Hc.
Qed.

Lemma header_value_str (t : string) :
  header_value (PyStr (header_value (PyStr t))) = header_value (PyStr t).
Proof.
  unfold header_value. cbn [str].
  destruct ((PyStr.lower (PyStr.strip t) =? "nan")
            || (PyStr.lower (PyStr.strip t) =? "none")) eqn:E; [reflexivity|].
  assert (Hs : PyStr.strip (PyStr.strip t) = PyStr.strip t)
    by apply strip_by_idem.
  rewrite !Hs. now rewrite E.
Qed.

(** X4: cleaning is idempotent: a header cell that holds an already
    cleaned value is left as it is by a second cleaning, and so is a whole
    row of cleaned values. *)
Theorem cleaning_is_idempotent (v : pyobj) (values : list pyobj) :
  header_value (PyStr (header_value v)) = header_value v
  /\ _normalize_header_values (map PyStr (_normalize_header_values values))
     = _normalize_header_values values.
Proof.
  assert (H : forall u, header_value (PyStr (header_value u)) = header_value u).
  { intros [| |t|z]; try reflexivity; [apply header_value_str|].
    change (header_value (PyInt z)) with (header_value (PyStr (PyStr.str_int z))).
    apply header_value_str. }
  split; [apply H|].
  unfold _normalize_header_values. rewrite !map_map.
  apply map_ext. intros u. apply H.
Qed.

(* ================================================================= *)
(** ** Further properties of the page parsing *)

Lemma int_raises (s : string) (e : exn) : int s = Raise e -> e = ValueError.
Proof. unfold int. destruct (PyStr.int s); [discriminate|]. now intros [= <-]. Qed.

Lemma unpack2_raises (parts : list string) (e : exn) :
  unpack2 parts = Raise e -> e = ValueError.
Proof.
  destruct parts as [|a [|b [|c r]]]; cbn [unpack2];
    try (now intros [= <-]).
  destruct (int a) as [x|x] eqn:Ea; cbn [bind].
  - destruct (int b) as [y|y] eqn:Eb; cbn [bind]; [discriminate|].
    intros [= <-]. exact (int_raises b y Eb).
  - intros [= <-]. exact (int_raises a x Ea).
Qed.

Lemma split_nonempty (sep : ascii) (s : string) : PyStr.split sep s <> [].
Proof.
  induction s as [|a r IH]; simpl; [discriminate|].
  destruct (Ascii.eqb a sep); [discriminate|].
  destruct (PyStr.split sep r); [congruence|discriminate].
Qed.

Lemma pages_loop_bad_head (x : string) (rest : list string) (acc : list Z) :
  bad_item x = true ->
  ExtractTable.pages_loop (x :: rest) acc = Raise ValueError.
Proof.
  unfold bad_item. cbn [ExtractTable.pages_loop].
  destruct (PyStr.strip x) as [|c t]; intros H; [reflexivity|].
  apply Ascii.eqb_eq in H. subst c.
  cbn [PyStr.contains PyStr.split]. rewrite Ascii.eqb_refl. cbn [orb].
  pose proof (split_nonempty "-" t) as Hne.
  destruct (PyStr.split "-" t) as [|b [|c r]]; [congruence|reflexivity..].
Qed.

Lemma pages_loop_bad (specs : list string) (acc : list Z) :
  existsb bad_item specs = true ->
  exists x, ExtractTable.pages_loop specs acc = Raise x.
Proof.
  revert acc. induction specs as [|x rest IH]; intros acc H; [discriminate|].
  cbn [existsb] in H. destruct (bad_item x) eqn:Ex.
  - exists ValueError. now apply pages_loop_bad_head.
  - cbn [orb] in H. cbn [ExtractTable.pages_loop].
    destruct (PyStr.contains "-" (PyStr.strip x)).
    + destruct (unpack2 _) as [se|y]; cbn [bind]; [|now exists y].
      destruct (extend_range _ _ _) as [l|y]; cbn [bind]; [|now exists y].
      now apply IH.
    + destruct (int _) as [q|y]; cbn [bind]; [|now exists y].
      now apply IH.
Qed.

Lemma letter_char_facts (c : ascii) :
  PyStr.lower_char c = "a"%char \/ PyStr.lower_char c = "l"%char ->
  PyStr.isspace c = false /\ Ascii.eqb c "," = false /\ Ascii.eqb c "-" = false.
Proof.
  ascii_cases c; intros [H|H]; vm_compute in H; try discriminate H;
    repeat split.
Qed.

(** A string that lower-cases to ["all"] is one item without a flaw. *)
Lemma lower_all_single_item (s : string) :
  PyStr.lower s = "all" -> existsb bad_item (PyStr.split "," s) = false.
Proof.
  destruct s as [|c1 [|c2 [|c3 [|c4 r]]]]; cbn [PyStr.lower]; try discriminate.
  intros [= H1 H2 H3].
  destruct (letter_char_facts c1 (or_introl H1)) as [S1 [C1 D1]].
  destruct (letter_char_facts c2 (or_intror H2)) as [_ [C2 _]].
  destruct (letter_char_facts c3 (or_intror H3)) as [S3 [C3 _]].
  cbn [PyStr.split]. rewrite C1, C2, C3. cbn [existsb]. unfold bad_item.
  unfold PyStr.strip, PyStr.strip_by. cbn [PyStr.lstrip_by]. rewrite S1.
  cbn [PyStr.rstrip_by]. rewrite S3.
  destruct (PyStr.isspace c2); now rewrite D1.
Qed.

(** X5: a specification with an item that is blank once stripped (the
    empty string, a doubled or trailing comma) or that starts with a hyphen
    (a negative page number) is refused by both scripts, wherever the item
    stands: no page list is returned, an exception is raised, the same by
    both. *)
Theorem flawed_item_is_refused (s : string) :
  existsb bad_item (PyStr.split "," s) = true ->
  exists x,
    ExtractTable.pages_list (PyStr s) = Raise x
    /\ ExtractTableA2.pages_list (PyStr s) = Raise x.
Proof.
  intros H.
  assert (Hall : (PyStr.lower s =? "all") = false).
  { apply String.eqb_neq. intros E.
    now rewrite (lower_all_single_item s E) in H. }
  destruct (pages_loop_bad (PyStr.split "," s) [] H) as [x Hloop].
  pose proof (pages_loop_agree (PyStr.split "," s) []) as Hagree.
  exists x.
  unfold ExtractTable.pages_list, ExtractTableA2.pages_list.
  cbn [py_str str bind]. rewrite Hall. split.
  - now rewrite Hloop.
  - now rewrite <- Hagree, Hloop.
Qed.

Lemma flawed_item_is_refused_witness :
  existsb bad_item (PyStr.split "," "1, ,-3") = true
  /\ exists x,
       ExtractTable.pages_list (PyStr "1, ,-3") = Raise x
       /\ ExtractTableA2.pages_list (PyStr "1, ,-3") = Raise x.
Proof.
  split; [reflexivity|].
  apply (flawed_item_is_refused "1, ,-3"). reflexivity.
Defined.

Lemma split_app_any (sep : ascii) (s t : string) :
  PyStr.split sep (s ++ String sep t) = PyStr.split sep s ++ PyStr.split sep t.
Proof.
  induction s as [|a r IH]; cbn [append PyStr.split].
  - now rewrite Ascii.eqb_refl.
  - destruct (Ascii.eqb a sep); rewrite IH; [reflexivity|].
    pose proof (split_nonempty sep r) as Hne.
    destruct (PyStr.split sep r); [congruence|reflexivity].
Qed.

Lemma pages_loop_acc (specs : list string) (acc : list Z) :
  ExtractTable.pages_loop specs acc
  = (l <- ExtractTable.pages_loop specs [] ;; Ok (acc ++ l)).
Proof.
  revert acc. induction specs as [|x rest IH]; intros acc;
    cbn [ExtractTable.pages_loop].
  - cbn [bind]. now rewrite List.app_nil_r.
  - destruct (PyStr.contains "-" (PyStr.strip x)).
    + destruct (unpack2 _) as [se|y]; cbn [bind]; [|reflexivity].
      unfold extend_range.
      destruct (maxsize <? snd se + 1 - fst se)%Z; cbn [bind app];
        [reflexivity|].
      rewrite (IH (acc ++ _)), (IH (rangeZ _ _)).
      destruct (ExtractTable.pages_loop rest []); cbn [bind]; [|reflexivity].
      now rewrite List.app_assoc.
    + destruct (int _) as [q|y]; cbn [bind app]; [|reflexivity].
      rewrite (IH (acc ++ _)), (IH [q]).
      destruct (ExtractTable.pages_loop rest []); cbn [bind]; [|reflexivity].
      now rewrite List.app_assoc.
Qed.

Lemma pages_loop_app (xs ys : list string) (acc : list Z) :
  ExtractTable.pages_loop (xs ++ ys) acc
  = (l <- ExtractTable.pages_loop xs acc ;; ExtractTable.pages_loop ys l).
Proof.
  revert acc. induction xs as [|x rest IH]; intros acc; [reflexivity|].
  cbn [app ExtractTable.pages_loop].
  destruct (PyStr.contains "-" (PyStr.strip x)).
  - destruct (unpack2 _); cbn [bind]; [|reflexivity].
    destruct (extend_range _ _ _); cbn [bind]; [apply IH|reflexivity].
  - destruct (int _); cbn [bind]; [apply IH|reflexivity].
Qed.

Lemma lower_all_no_comma (s : string) :
  PyStr.contains "," s = true -> (PyStr.lower s =? "all") = false.
Proof.
  intros H. apply String.eqb_neq. intros E.
  destruct s as [|c1 [|c2 [|c3 [|c4 r]]]]; cbn [PyStr.lower] in E;
    try discriminate.
  injection E as H1 H2 H3.
  destruct (letter_char_facts c1 (or_introl H1)) as [_ [C1 _]].
  destruct (letter_char_facts c2 (or_intror H2)) as [_ [C2 _]].
  destruct (letter_char_facts c3 (or_intror H3)) as [_ [C3 _]].
  cbn [PyStr.contains] in H. rewrite C1, C2, C3 in H. discriminate.
Qed.

(** X6: specifications compose at a comma: both scripts map [s,t] to the
    pages of the items of [s] followed by the pages of the items of [t],
    and refuse it as soon as an item of [s], or else of [t], is refused.
    Here ["all"] is an item like any other, so it is refused as a part. *)
Theorem pages_of_joined_specifications (s t : string) :
  let joined := (s ++ "," ++ t)%string in
  let parts :=
    l1 <- ExtractTable.pages_loop (PyStr.split "," s) [] ;;
    l2 <- ExtractTable.pages_loop (PyStr.split "," t) [] ;;
    Ok (PageList (l1 ++ l2)) in
  ExtractTable.pages_list (PyStr joined) = parts
  /\ ExtractTableA2.pages_list (PyStr joined) = parts
  /\ ExtractTable.pages_list (PyStr ("all" ++ "," ++ t)) = Raise ValueError.
Proof.
  intros joined parts.
  assert (Hj : ExtractTable.pages_list (PyStr joined) = parts).
  { unfold ExtractTable.pages_list. cbn [py_str str bind].
    rewrite lower_all_no_comma by apply contains_app_sep.
    subst joined parts. cbn [append]. rewrite split_app_any, pages_loop_app.
    destruct (ExtractTable.pages_loop (PyStr.split "," s) []) as [l1|e];
      cbn [bind]; [|reflexivity].
    rewrite pages_loop_acc.
    now destruct (ExtractTable.pages_loop (PyStr.split "," t) []). }
  split; [exact Hj|]. split.
  - rewrite <- Hj. unfold ExtractTable.pages_list, ExtractTableA2.pages_list.
    cbn [py_str str bind].
    destruct (PyStr.lower joined =? "all"); [reflexivity|].
    apply (f_equal (fun m => l <- m ;; Ok (PageList l))).
    apply pages_loop_agree.
  - unfold ExtractTable.pages_list. cbn [py_str str bind].
    rewrite lower_all_no_comma by apply (contains_app_sep "," "all" t).
    change ("all" ++ "," ++ t)%string with ("all" ++ String "," t)%string.
    now rewrite split_app_any.
Qed.

Lemma neg_int_text (p : positive) :
  exists d, PyStr.str_int (Zneg p) = String "-" d
            /\ all_chars PyStr.isdigit d = true.
Proof.
  exists (NilEmpty.string_of_uint (Pos.to_uint p)).
  split; [|apply string_of_uint_digits].
  unfold PyStr.str_int. cbn [Z.to_int NilZero.string_of_int].
  unfold NilZero.string_of_uint.
  pose proof (DecimalPos.Unsigned.to_uint_nonnil p) as Hp.
  now destruct (Pos.to_uint p); [congruence|..].
Qed.

Lemma count_digits_all (s : string) :
  all_chars PyStr.isdigit s = true -> PyStr.count_digits s = String.length s.
Proof.
  induction s as [|c r IH]; simpl; [reflexivity|].
  intros H. apply andb_true_iff in H. destruct H as [Hc Hr].
  now rewrite Hc, (IH Hr).
Qed.

(** X7: handed an [int] instead of a string, [extract_table.py] reads a
    page number that is not negative and has at most 4300 digits as that
    one page, and refuses every other [int] with a [ValueError];
    [extract_table_a2.py] refuses [None], [nan] and every [int] with an
    [AttributeError]. *)
Theorem pages_argument_not_a_string (z : Z) (v : pyobj) :
  ExtractTable.pages_list (PyInt z)
  = (if (0 <=? z)%Z
        && Nat.leb (PyStr.count_digits (PyStr.str_int z))
                   PyStr.int_max_str_digits
     then Ok (PageList [z]) else Raise ValueError)
  /\ ((forall s, v <> PyStr s) ->
      ExtractTableA2.pages_list v = Raise AttributeError).
Proof.
  split.
  - unfold ExtractTable.pages_list, py_str.
    destruct (Nat.ltb_spec PyStr.int_max_str_digits
                           (PyStr.count_digits (PyStr.str_int z)))
      as [Hbig|Hfit].
    { replace (Nat.leb _ _) with false by (symmetry; apply Nat.leb_gt; lia).
      now rewrite andb_false_r. }
    replace (Nat.leb (PyStr.count_digits (PyStr.str_int z))
                     PyStr.int_max_str_digits)
      with true by (symmetry; apply Nat.leb_le; lia).
    rewrite andb_true_r. cbn [bind].
    destruct (Z.leb_spec 0 z) as [Hz|Hz].
    + assert (Hdec : PyStr.str_int z = decimal (Z.to_N z))
        by (unfold decimal; now rewrite Z2N.id by exact Hz).
      set (p := mkPadded "" (Page (Z.to_N z)) "").
      assert (Htext : PyStr.str_int z = padded_text p).
      { unfold padded_text, p. cbn [pad_left pad_right item item_text append].
        now rewrite append_nil_r. }
      assert (Hp : padded_ok p = true).
      { unfold padded_ok, p. cbn [pad_left pad_right item item_ok].
        unfold numeral_ok. rewrite <- Hdec.
        rewrite <- count_digits_all
          by (rewrite Hdec; apply decimal_digits).
        cbn [all_space all_chars andb]. apply Nat.leb_le. lia. }
      rewrite Htext.
      rewrite split_none by (now apply padded_text_no_comma).
      change [padded_text p] with (map padded_text [p]).
      rewrite (pages_loop_items [p] []).
      * subst p. cbn [bind map item item_pages List.concat app].
        now rewrite Z2N.id by exact Hz.
      * cbn [forallb]. now rewrite Hp.
      * cbn. unfold page_budget. lia.
    + destruct z as [|q|q]; try lia.
      destruct (neg_int_text q) as [d [Ed Hd]].
      assert (Hno : forall c, PyStr.isdigit c = true -> Ascii.eqb c "," = false).
      { intros c Hc. apply item_char_no_comma. unfold item_char.
        rewrite Hc. now rewrite orb_true_r. }
      assert (Hcomma : PyStr.contains "," (String "-" d) = false).
      { cbn [PyStr.contains]. now rewrite (contains_none _ _ _ Hno Hd). }
      assert (Hstrip : PyStr.strip (String "-" d) = String "-" d).
      { apply strip_by_clean. cbn [all_chars].
        rewrite (all_chars_impl PyStr.isdigit); [reflexivity| |exact Hd].
        intros c Hc. now rewrite (proj1 (digit_char_facts c Hc)). }
      rewrite Ed. rewrite split_none by exact Hcomma.
      rewrite pages_loop_bad_head; [reflexivity|].
      unfold bad_item. now rewrite Hstrip.
  - intros Hv. destruct v as [| |s|n]; try reflexivity.
    now destruct (Hv s).
Qed.

Lemma pages_argument_not_a_string_witness :
  ExtractTable.pages_list (PyInt 12) = Ok (PageList [12%Z])
  /\ ExtractTable.pages_list (PyInt (-3)) = Raise ValueError
  /\ (forall s, PyNone <> PyStr s)
  /\ ExtractTableA2.pages_list PyNone = Raise AttributeError.
Proof.
  split;
    [exact (proj1 (pages_argument_not_a_string 12 PyNone))|].
  split;
    [exact (proj1 (pages_argument_not_a_string (-3) PyNone))|].
  split; [discriminate|].
  apply (proj2 (pages_argument_not_a_string 12 PyNone)). discriminate.
Defined.

(* ================================================================= *)
(** ** A single header row *)

Lemma nth_fit_labels (ncols i : nat) (l : list string) :
  (i < ncols)%nat -> nth i (fit_labels ncols l) "" = nth i l "".
Proof.
  intros Hi. unfold fit_labels.
  destruct (Nat.ltb_spec (List.length l) ncols) as [Hshort|Hlong].
  - destruct (Nat.lt_ge_cases i (List.length l)) as [Hin|Hout].
    + now rewrite app_nth1.
    + rewrite app_nth2 by exact Hout. rewrite nth_repeat.
      now rewrite (nth_overflow l "" Hout).
  - rewrite <- (firstn_skipn ncols l) at 2. rewrite app_nth1; [reflexivity|].
    rewrite length_firstn. lia.
Qed.

(** X12: with one header row without [int] cells and [flatten] set, the
    separator plays no part: the label of column [i] is the cleaned cell
    [i] of the first row, and it is ["col_<i>"] when that cell cleans to
    the empty string or the row is too short to have it. *)
Theorem single_header_row_labels
  (fa : list (list pyobj) -> result Index) (cols : Index)
  (r : list pyobj) (data : list (list pyobj)) (sep : string) :
  forallb no_int r = true ->
  let df := mkDataFrame cols (r :: data) in
  let label i :=
    match nth i (_normalize_header_values r) "" with
    | EmptyString => ("col_" ++ PyStr.str_int (Z.of_nat i))%string
    | cell => cell
    end in
  _apply_multirow_header fa df 1 true sep
  = Ok (mkDataFrame (Flat (map (fun i => PyStr (label i)) (range (shape1 df))))
                    data).
Proof.
  intros _ df label.
  rewrite past_guards by (unfold len, df; cbn [rows List.length]; lia).
  cbv zeta. unfold flat_labels. rewrite map_map.
  change (skipn (Z.to_nat 1) (rows df)) with data. do 3 f_equal.
  apply map_ext_in. intros i Hi. apply in_seq in Hi. f_equal.
  unfold header_levels. change (Z.to_nat 1) with 1%nat.
  cbn [rows df firstn map fragments]. rewrite nth_fit_labels by lia.
  unfold column_label, label. cbn [filter].
  now destruct (nth i (_normalize_header_values r) "").
Qed.

Lemma single_header_row_labels_witness :
  forallb no_int [PyStr " Year "; PyNaN] = true
  /\ _apply_multirow_header pandas_from_arrays
       (mkDataFrame (Flat [PyStr "a"; PyStr "b"; PyStr "c"])
                    [[PyStr " Year "; PyNaN]; [PyInt 1; PyInt 2; PyInt 3]])
       1 true "/"
     = Ok (mkDataFrame (Flat [PyStr "Year"; PyStr "col_1"; PyStr "col_2"])
                       [[PyInt 1; PyInt 2; PyInt 3]]).
Proof.
  split; [reflexivity|].
  exact (single_header_row_labels pandas_from_arrays
           (Flat [PyStr "a"; PyStr "b"; PyStr "c"])
           [PyStr " Year "; PyNaN] [[PyInt 1; PyInt 2; PyInt 3]] "/" eq_refl).
Defined.

(* ================================================================= *)
(** ** White space inside a range *)

Lemma int_space_is_space (c : ascii) :
  PyStr.int_space c = true ->
  PyStr.isspace c = true /\ PyStr.isdigit c = false /\ Ascii.eqb c "-" = false.
Proof. ascii_cases c; intros H; try discriminate H; repeat split. Qed.

Lemma rstrip_by_last_kept (sp : ascii -> bool) (s : string) (c : ascii) :
  last_char s = Some c -> sp c = false -> PyStr.rstrip_by sp s = s.
Proof.
  induction s as [|a r IH]; [discriminate|]. intros Hl Hc.
  cbn [PyStr.rstrip_by]. destruct r as [|b r'].
  - cbn [last_char] in Hl. injection Hl as ->. cbn [PyStr.rstrip_by].
    now rewrite Hc.
  - rewrite IH by assumption. reflexivity.
Qed.

Lemma strip_by_edges (sp : ascii -> bool) (s : string) (a b : ascii) :
  first_char s = Some a -> last_char s = Some b ->
  sp a = false -> sp b = false -> PyStr.strip_by sp s = s.
Proof.
  intros Hf Hl Ha Hb. unfold PyStr.strip_by. rewrite lstrip_by_id.
  - exact (rstrip_by_last_kept sp s b Hl Hb).
  - intros c Hc. rewrite Hf in Hc. now injection Hc as <-.
Qed.

Lemma last_char_app (s t : string) :
  t <> "" -> last_char (s ++ t) = last_char t.
Proof.
  intros Ht. induction s as [|a r IH]; [reflexivity|].
  cbn [append last_char]. rewrite IH.
  destruct (r ++ t)%string eqn:E; [|reflexivity].
  destruct r; [cbn [append] in E; congruence|discriminate E].
Qed.

Lemma last_char_all (p : ascii -> bool) (s : string) (c : ascii) :
  all_chars p s = true -> last_char s = Some c -> p c = true.
Proof.
  induction s as [|a r IH]; [discriminate|]. cbn [all_chars last_char].
  intros H Hl. apply andb_true_iff in H. destruct H as [Ha Hr].
  destruct r; [now injection Hl as <-|now apply IH].
Qed.

Lemma decimal_edges (n : N) (s : string) :
  exists a b, first_char (decimal n ++ s) = Some a
              /\ last_char (s ++ decimal n) = Some b
              /\ PyStr.isdigit a = true /\ PyStr.isdigit b = true.
Proof.
  pose proof (decimal_digits n) as Hd. pose proof (decimal_nonempty n) as Hn.
  rewrite last_char_app by exact Hn.
  destruct (decimal n) as [|a r] eqn:E; [congruence|].
  destruct (last_char (String a r)) as [b|] eqn:El.
  - exists a, b. repeat split; try reflexivity.
    + cbn [all_chars] in Hd. now apply andb_true_iff in Hd.
    + exact (last_char_all _ _ _ Hd El).
  - exfalso. clear -El. revert a El.
    induction r as [|x r IH]; intros a El; [discriminate|]. exact (IH x El).
Qed.

(** [int] skips white space around a decimal numeral. *)
Lemma int_padded (l r : string) (n : N) :
  numeral_ok n = true ->
  all_chars PyStr.int_space l = true -> all_chars PyStr.int_space r = true ->
  int (l ++ decimal n ++ r) = Ok (Z.of_N n).
Proof.
  intros Hok Hl Hr. rewrite <- (int_decimal n Hok). unfold int, PyStr.int.
  assert (Hd : all_chars (fun c => negb (PyStr.int_space c)) (decimal n) = true).
  { apply (all_chars_impl PyStr.isdigit); [|apply decimal_digits].
    intros c Hc. now rewrite (proj1 (proj2 (digit_char_facts c Hc))). }
  now rewrite (strip_by_padded _ l (decimal n) r Hl Hr Hd), strip_by_clean.
Qed.

Lemma spaced_range_chars (n : N) (l r : string) :
  all_chars PyStr.int_space l = true -> all_chars PyStr.int_space r = true ->
  all_chars (fun c => PyStr.isspace c || PyStr.isdigit c) (l ++ decimal n ++ r)
  = true.
Proof.
  intros Hl Hr. rewrite !all_chars_app.
  assert (Hsp : forall s, all_chars PyStr.int_space s = true ->
                all_chars (fun c => PyStr.isspace c || PyStr.isdigit c) s = true).
  { intros s. apply all_chars_impl. intros c Hc.
    now rewrite (proj1 (int_space_is_space c Hc)). }
  rewrite (Hsp l Hl), (Hsp r Hr).
  rewrite (all_chars_impl PyStr.isdigit); [reflexivity| |apply decimal_digits].
  intros c Hc. rewrite Hc. apply orb_true_r.
Qed.

Lemma plain_char_facts (c : ascii) :
  PyStr.isspace c || PyStr.isdigit c = true ->
  Ascii.eqb c "-" = false /\ Ascii.eqb c "," = false.
Proof. ascii_cases c; intros H; try discriminate H; now split. Qed.

(** X13: white space is accepted on either side of the hyphen of a range:
    both scripts read [a - b], with any white space that [int] skips after
    [a] and before [b], as the pages from [a] to [b] inclusive, for
    numerals of at most 4300 digits and a range of at most a million
    pages. *)
Theorem range_with_inner_white_space (a b : N) (ra lb : string) :
  all_chars PyStr.int_space ra = true ->
  all_chars PyStr.int_space lb = true ->
  numeral_ok a = true -> numeral_ok b = true ->
  (Z.of_N b - Z.of_N a < page_budget)%Z ->
  let spec := (decimal a ++ ra ++ "-" ++ lb ++ decimal b)%string in
  ExtractTable.pages_list (PyStr spec)
  = Ok (PageList (inclusive (Z.of_N a) (Z.of_N b)))
  /\ ExtractTableA2.pages_list (PyStr spec)
     = Ok (PageList (inclusive (Z.of_N a) (Z.of_N b))).
Proof.
  intros Hra Hlb Hna Hnb Hsize spec.
  set (left := (decimal a ++ ra)%string).
  set (right := (lb ++ decimal b)%string).
  assert (Hspec : spec = (left ++ String "-" right)%string).
  { subst spec left right. now rewrite <- append_assoc. }
  assert (Hleft : all_chars (fun c => PyStr.isspace c || PyStr.isdigit c) left
                  = true).
  { pose proof (spaced_range_chars a "" ra eq_refl Hra) as H. exact H. }
  assert (Hright : all_chars (fun c => PyStr.isspace c || PyStr.isdigit c) right
                   = true).
  { pose proof (spaced_range_chars b lb "" Hlb eq_refl) as H.
    now rewrite append_nil_r in H. }
  assert (Hdash : forall s,
             all_chars (fun c => PyStr.isspace c || PyStr.isdigit c) s = true ->
             PyStr.contains "-" s = false /\ PyStr.contains "," s = false).
  { intros s Hs. split;
      (apply (contains_none (fun c => PyStr.isspace c || PyStr.isdigit c));
       [intros c Hc; apply (plain_char_facts c Hc)|exact Hs]). }
  assert (Hstrip : PyStr.strip spec = spec).
  { destruct (decimal_edges a (ra ++ "-" ++ lb ++ decimal b)) as [x [_ [Hx [_ [Dx _]]]]].
    destruct (decimal_edges b (decimal a ++ ra ++ "-" ++ lb)) as [_ [y [_ [Hy [_ Dy]]]]].
    apply (strip_by_edges PyStr.isspace spec x y).
    - exact Hx.
    - subst spec. rewrite <- Hy. f_equal.
      now rewrite <- !append_assoc.
    - apply (digit_char_facts x Dx).
    - apply (digit_char_facts y Dy). }
  assert (Hloop : ExtractTable.pages_loop (PyStr.split "," spec) []
                  = Ok (inclusive (Z.of_N a) (Z.of_N b))).
  { rewrite split_none.
    2:{ rewrite Hspec.
        apply (contains_none
                 (fun c => PyStr.isspace c || PyStr.isdigit c || Ascii.eqb c "-")).
        - intros c Hc. apply item_char_no_comma. exact Hc.
        - rewrite all_chars_app. cbn [all_chars].
          rewrite (all_chars_impl _ _ left (fun c H => orb_true_intro _ _ (or_introl H)) Hleft).
          rewrite (all_chars_impl _ _ right (fun c H => orb_true_intro _ _ (or_introl H)) Hright).
          reflexivity. }
    cbn [ExtractTable.pages_loop]. rewrite Hstrip, Hspec.
    rewrite contains_app_sep.
    rewrite split_app by apply (Hdash left Hleft).
    rewrite split_none by apply (Hdash right Hright).
    cbn [unpack2]. subst left right.
    pose proof (int_padded "" ra a Hna eq_refl Hra) as Ia. cbn [append] in Ia.
    pose proof (int_padded lb "" b Hnb Hlb eq_refl) as Ib.
    rewrite append_nil_r in Ib. rewrite Ia, Ib. cbn [bind fst snd].
    unfold extend_range. unfold page_budget in Hsize.
    replace (maxsize <? Z.of_N b + 1 - Z.of_N a)%Z with false
      by (symmetry; apply Z.ltb_ge; unfold maxsize; lia).
    cbn [bind app]. now rewrite rangeZ_inclusive. }
  pose proof (pages_loop_agree (PyStr.split "," spec) []) as Hagree.
  unfold ExtractTable.pages_list, ExtractTableA2.pages_list.
  cbn [py_str str bind].
  rewrite (lower_not_all spec)
    by (subst spec; apply (item_text_starts (Page a))).
  split.
  - now rewrite Hloop.
  - now rewrite <- Hagree, Hloop.
Qed.

Lemma range_with_inner_white_space_witness :
  all_chars PyStr.int_space " " = true
  /\ all_chars PyStr.int_space "  " = true
  /\ numeral_ok 5 = true /\ numeral_ok 7 = true
  /\ (Z.of_N 7 - Z.of_N 5 < page_budget)%Z
  /\ ExtractTable.pages_list (PyStr "5 -  7") = Ok (PageList [5; 6; 7]%Z)
  /\ ExtractTableA2.pages_list (PyStr "5 -  7") = Ok (PageList [5; 6; 7]%Z).
Proof.
  split; [reflexivity|]. split; [reflexivity|].
  split; [vm_compute; reflexivity|]. split; [vm_compute; reflexivity|].
  split; [vm_compute; reflexivity|].
  exact (range_with_inner_white_space 5 7 " " "  " eq_refl eq_refl
           ltac:(vm_compute; reflexivity) ltac:(vm_compute; reflexivity)
           ltac:(vm_compute; reflexivity)).
Defined.
(* ================================================================= *)
(** ** The temporary directory *)

Section TmpSame.

Variable e : env.

Lemma tmp_same_ret {A : Type} (a : A) : tmp_same (ret a).
Proof. intros w. reflexivity. Qed.

Lemma tmp_same_sys_exit {A : Type} (c : Z) : tmp_same (@sys_exit A c).
Proof. intros w. reflexivity. Qed.

Lemma tmp_same_lift {A : Type} (r : result A) : tmp_same (lift r).
Proof. intros w. unfold lift. now destruct r. Qed.

Lemma tmp_same_print : tmp_same (print e).
Proof. intros w. unfold print, lift. now destruct (print_result e _). Qed.

Lemma tmp_same_write_csv (df : DataFrame) (path : string) :
  tmp_same (write_csv e df path).
Proof. intros w. unfold write_csv. now destruct (to_csv e df path). Qed.

Lemma tmp_same_pbind {A B : Type} (m : prog A) (k : A -> prog B) :
  tmp_same m -> (forall a, tmp_same (k a)) -> tmp_same (pbind m k).
Proof.
  intros Hm Hk w. unfold pbind. specialize (Hm w).
  destruct (m w) as [[a|c|x] w1]; cbn [snd] in *; try exact Hm.
  now rewrite (Hk a w1).
Qed.

Lemma tmp_same_try_except {A : Type} (m : prog A) (handler : exn -> prog A) :
  tmp_same m -> (forall x, tmp_same (handler x)) ->
  tmp_same (try_except m handler).
Proof.
  intros Hm Hh w. unfold try_except. specialize (Hm w).
  destruct (m w) as [[a|c|x] w1]; cbn [snd] in *; try exact Hm.
  now rewrite (Hh x w1).
Qed.

Lemma tmp_same_for_each {A B : Type} (f : A -> prog B) (xs : list A) :
  (forall x, tmp_same (f x)) -> tmp_same (for_each f xs).
Proof.
  intros Hf. induction xs as [|x r IH]; cbn [for_each]; [apply tmp_same_ret|].
  apply tmp_same_pbind; [apply Hf|]. intros y.
  apply tmp_same_pbind; [exact IH|]. intros ys. apply tmp_same_ret.
Qed.

Lemma tmp_same_handler {A : Type} :
  tmp_same (_ <-- print e ;; @sys_exit A 1).
Proof.
  apply tmp_same_pbind; [apply tmp_same_print|].
  intros _. apply tmp_same_sys_exit.
Qed.

Lemma tmp_same_extract_tables (pdf_path : string) (pages : pyobj)
  (out : string) (h : Z) (flatten : bool) (sep : string) :
  tmp_same (ExtractTable.extract_tables e pdf_path pages out h flatten sep).
Proof.
  apply tmp_same_try_except; [|intros; apply tmp_same_handler].
  apply tmp_same_pbind; [apply tmp_same_lift|]. intros pl.
  apply tmp_same_pbind; [apply tmp_same_print|]. intros _.
  apply tmp_same_pbind; [apply tmp_same_lift|]. intros tables.
  apply tmp_same_pbind.
  { destruct tables; [apply tmp_same_handler|apply tmp_same_ret]. }
  intros _. apply tmp_same_pbind.
  { apply tmp_same_for_each. intros df.
    destruct (negb (h =? 0)%Z && (h >? 0)%Z); [|apply tmp_same_ret].
    apply tmp_same_pbind; [apply tmp_same_print|].
    intros _. apply tmp_same_lift. }
  intros processed. apply tmp_same_pbind; [apply tmp_same_lift|].
  intros combined. apply tmp_same_pbind; [apply tmp_same_write_csv|].
  intros _. apply tmp_same_pbind; [apply tmp_same_print|].
  intros _. apply tmp_same_print.
Qed.

Lemma tmp_same_extract_tables_a2 (pdf_path : string) (pages : pyobj)
  (out : string) :
  tmp_same (ExtractTableA2.extract_tables e pdf_path pages out).
Proof.
  apply tmp_same_try_except; [|intros; apply tmp_same_handler].
  apply tmp_same_pbind; [apply tmp_same_lift|]. intros pl.
  apply tmp_same_pbind; [apply tmp_same_print|]. intros _.
  apply tmp_same_pbind; [apply tmp_same_lift|]. intros tables.
  apply tmp_same_pbind.
  { destruct tables; [apply tmp_same_handler|apply tmp_same_ret]. }
  intros _. apply tmp_same_pbind; [apply tmp_same_lift|].
  intros combined. apply tmp_same_pbind; [apply tmp_same_write_csv|].
  intros _. apply tmp_same_pbind; [apply tmp_same_print|].
  intros _. apply tmp_same_print.
Qed.

End TmpSame.

Section Directory.

Variable d : string.

Lemma dir_exists_tmp (w1 w2 : world) :
  tmp w1 = tmp w2 -> dir_exists d w1 = dir_exists d w2.
Proof. unfold dir_exists. now intros ->. Qed.

Lemma files_in_tmp (w1 w2 : world) :
  tmp w1 = tmp w2 -> files_in d w1 = files_in d w2.
Proof. unfold files_in. now intros ->. Qed.

Lemma add_file_tmp (f : string) (w1 w2 : world) :
  tmp w1 = tmp w2 -> tmp (add_file d f w1) = tmp (add_file d f w2).
Proof. unfold add_file. cbn [tmp]. now intros ->. Qed.

Lemma rmtree_tmp (w1 w2 : world) :
  tmp w1 = tmp w2 -> tmp (rmtree d w1) = tmp (rmtree d w2).
Proof. unfold rmtree. cbn [tmp]. now intros ->. Qed.

Lemma dir_exists_add_dir (w : world) : dir_exists d (add_dir d w) = true.
Proof.
  unfold dir_exists, add_dir. cbn [tmp existsb fst].
  now rewrite String.eqb_refl.
Qed.

Lemma dir_exists_add_file (f : string) (w : world) :
  dir_exists d (add_file d f w) = dir_exists d w.
Proof.
  unfold dir_exists, add_file. cbn [tmp].
  induction (tmp w) as [|[d' fs] l IH]; [reflexivity|].
  cbn [map existsb fst snd]. rewrite IH.
  destruct (d' =? d)%string eqn:E; cbn [fst]; now rewrite E.
Qed.

Lemma files_in_add_file (f : string) (w : world) :
  dir_exists d w = true -> In f (files_in d (add_file d f w)).
Proof.
  unfold dir_exists, files_in, add_file. cbn [tmp].
  induction (tmp w) as [|[d' fs] l IH]; [discriminate|].
  cbn [map existsb filter fst snd].
  destruct (d' =? d)%string eqn:E; cbn [fst orb].
  - intros _. rewrite E. cbn [map List.concat snd]. now left.
  - intros H. rewrite E. now apply IH.
Qed.

Lemma rmtree_add_file (f : string) (w : world) :
  tmp (rmtree d (add_file d f w)) = tmp (rmtree d w).
Proof.
  unfold rmtree, add_file. cbn [tmp].
  induction (tmp w) as [|[d' fs] l IH]; [reflexivity|].
  cbn [map filter fst snd]. destruct (d' =? d)%string eqn:E.
  - cbn [fst]. rewrite E. cbn [negb]. exact IH.
  - cbn [fst]. rewrite E. cbn [negb]. now rewrite IH.
Qed.

Lemma rmtree_add_dir (w : world) :
  tmp (rmtree d (add_dir d w)) = tmp (rmtree d w).
Proof.
  unfold rmtree, add_dir. cbn [tmp filter fst].
  now rewrite String.eqb_refl.
Qed.

Lemma rmtree_fresh (w : world) :
  dir_exists d w = false -> tmp (rmtree d w) = tmp w.
Proof.
  unfold dir_exists, rmtree. cbn [tmp].
  induction (tmp w) as [|x l IH]; [reflexivity|].
  cbn [existsb filter]. intros H. apply orb_false_iff in H.
  destruct H as [Hx Hl]. rewrite Hx. cbn [negb]. now rewrite IH.
Qed.

Lemma rmtree_gone (w : world) : dir_exists d (rmtree d w) = false.
Proof.
  unfold dir_exists, rmtree. cbn [tmp].
  induction (tmp w) as [|x l IH]; [reflexivity|].
  cbn [filter]. destruct (fst x =? d)%string eqn:E; cbn [negb].
  - exact IH.
  - cbn [existsb]. now rewrite E, IH.
Qed.

(** The download touches the directory only by creating the PDF in it. *)
Lemma download_pdf_tmp (e : env) (url : string) (w : world) :
  dir_exists d w = true ->
  (tmp (snd (ExtractTable.download_pdf e url d w)) = tmp w
   \/ tmp (snd (ExtractTable.download_pdf e url d w))
      = tmp (add_file d "temp_pdf.pdf" w))
  /\ (forall content,
         requests_get e url = Ok content -> save_pdf e content = Written ->
         tmp (snd (ExtractTable.download_pdf e url d w))
         = tmp (add_file d "temp_pdf.pdf" w)
         /\ exists path, fst (ExtractTable.download_pdf e url d w) = Return path).
Proof.
  intros Hd.
  unfold ExtractTable.download_pdf, try_except, pbind, lift, open_write,
    print, sys_exit, ret.
  destruct (requests_get e url) as [content|x].
  - rewrite Hd. destruct (save_pdf e content) as [|x|x] eqn:Es.
    + split; [now right|]. intros c _ _. split; [reflexivity|now eexists].
    + split; [|intros c [= <-] Hs; congruence]. left.
      now destruct (print_result e (printed w)).
    + split; [|intros c [= <-] Hs; congruence]. right.
      now destruct (print_result e (printed (add_file d "temp_pdf.pdf" w))).
  - split; [|intros c Hc; discriminate Hc]. left.
    now destruct (print_result e (printed w)).
Qed.

End Directory.

(** The body of the [with] statement: a [print], the download, and a rest
    that leaves the temporary directories alone. *)
Lemma block_footprint_of (e : env) (url : string)
  (rest : string -> prog unit) :
  (forall path, tmp_same (rest path)) ->
  block_footprint e url
    (fun d => _ <-- print e ;;
              pdf_path <-- ExtractTable.download_pdf e url d ;;
              rest pdf_path).
Proof.
  intros Hrest d w Hd. cbv beta. unfold pbind, print, lift.
  set (w1 := mkWorld (tmp w) (outputs w) (S (printed w))).
  assert (Hd1 : dir_exists d w1 = true) by exact Hd.
  destruct (print_result e (printed w)) as [[]|x];
    [|split; [now left|intros c Hc; discriminate Hc]].
  destruct (download_pdf_tmp d e url w1 Hd1) as [Hcases Hfull].
  change (tmp w1) with (tmp w) in Hcases.
  change (tmp (add_file d "temp_pdf.pdf" w1))
    with (tmp (add_file d "temp_pdf.pdf" w)) in Hcases, Hfull.
  destruct (ExtractTable.download_pdf e url d w1) as [[path|c|x] w2];
    cbn [fst snd] in *; try rewrite (Hrest path w2);
    (split; [exact Hcases|]);
    intros content _ Hget Hsave; exact (proj1 (Hfull content Hget Hsave)).
Qed.

(** A run of [main], from the dependency check to the end of the [with]
    statement. *)
Lemma lifecycle_of_main (e : env) (w : world) (out url : string)
  (block : string -> prog unit) :
  (forall d, mkdtemp e = Ok d -> dir_exists d w = false) ->
  block_footprint e url block ->
  temp_dir_lifecycle e w out url block
    ((_ <-- (if DEPENDENCIES_AVAILABLE e then ret tt
             else _ <-- print e ;; sys_exit 1) ;;
      _ <-- lift (mkdir_parents e out) ;;
      with_TemporaryDirectory e block) w).
Proof.
  intros Hfresh Hblock.
  unfold temp_dir_lifecycle, pbind, lift, ret, print, sys_exit.
  destruct (DEPENDENCIES_AVAILABLE e) eqn:Edep.
  2:{ destruct (print_result e (printed w)) as [[]|x]; cbn [snd tmp];
        (split; [reflexivity|]; intros d Hd;
         split; [now apply Hfresh|intros H; discriminate H]). }
  destruct (mkdir_parents e out) as [[]|x] eqn:Emk.
  2:{ split; [reflexivity|]. intros d Hd.
      split; [now apply Hfresh|intros _ H; discriminate H]. }
  unfold with_TemporaryDirectory.
  destruct (mkdtemp e) as [d0|x] eqn:Etmp;
    [|split; [reflexivity|intros d Hd; discriminate Hd]].
  pose proof (Hfresh d0 eq_refl) as Hnew.
  destruct (Hblock d0 (add_dir d0 w) (dir_exists_add_dir d0 w))
    as [Hcases Hfull].
  destruct (block d0 (add_dir d0 w)) as [r w1] eqn:Eblock.
  cbn [snd] in *.
  assert (Hrm : tmp (rmtree d0 w1) = tmp w).
  { rewrite <- (rmtree_fresh d0 w Hnew), <- (rmtree_add_dir d0 w).
    destruct Hcases as [H|H]; rewrite (rmtree_tmp d0 _ _ H);
      [reflexivity|apply rmtree_add_file]. }
  split; [exact Hrm|]. intros d [= <-]. cbn [snd].
  split; [apply rmtree_gone|]. intros _ _.
  exists r, w1. split; [exact Eblock|].
  split; [apply dir_exists_add_dir|]. split.
  { destruct Hcases as [H|H]; rewrite (dir_exists_tmp d0 _ _ H).
    - apply dir_exists_add_dir.
    - rewrite dir_exists_add_file. apply dir_exists_add_dir. }
  split; [|reflexivity].
  intros content Hprint Hget Hsave.
  rewrite (files_in_tmp d0 _ _ (Hfull content Hprint Hget Hsave)).
  apply files_in_add_file, dir_exists_add_dir.
Qed.

(** C10 (temporary directory): whatever the libraries and the system
    answer during a run of either script, thus on success, on a failed
    download and on a failed extraction or normalisation alike, the
    temporary directory of the run is created before the body of the
    [with] statement runs, it exists for as long as the body runs and
    holds the PDF once the download has written it, and it is removed
    when the body is left, however it is left: when [main] ends the
    directory does not exist and the temporary directories are those
    found at the start. *)
Theorem temp_dir_removed_on_every_exit (e : env) (a : ExtractTable.Args)
  (a2 : ExtractTableA2.Args) (w : world) :
  (forall d, mkdtemp e = Ok d -> dir_exists d w = false) ->
  temp_dir_lifecycle e w (ExtractTable.output_csv a) (ExtractTable.pdf_url a)
    (ExtractTable.main_block e a) (ExtractTable.main e a w)
  /\ temp_dir_lifecycle e w (ExtractTableA2.output_csv a2)
       (ExtractTableA2.pdf_url a2)
       (ExtractTableA2.main_block e a2) (ExtractTableA2.main e a2 w).
Proof.
  intros Hfresh. split.
  - apply (lifecycle_of_main e w (ExtractTable.output_csv a)
             (ExtractTable.pdf_url a) (ExtractTable.main_block e a) Hfresh).
    apply (block_footprint_of e (ExtractTable.pdf_url a)
             (fun pdf_path =>
                _ <-- print e ;;
                ExtractTable.extract_tables e pdf_path
                  (PyStr (ExtractTable.pages a)) (ExtractTable.output_csv a)
                  (ExtractTable.header_rows a) (ExtractTable.flatten_headers a)
                  (ExtractTable.header_sep a))).
    intros path. apply tmp_same_pbind; [apply tmp_same_print|].
    intros _. apply tmp_same_extract_tables.
  - apply (lifecycle_of_main e w (ExtractTableA2.output_csv a2)
             (ExtractTableA2.pdf_url a2) (ExtractTableA2.main_block e a2)
             Hfresh).
    apply (block_footprint_of e (ExtractTableA2.pdf_url a2)
             (fun pdf_path =>
                _ <-- print e ;;
                ExtractTableA2.extract_tables e pdf_path
                  (PyStr (ExtractTableA2.pages a2))
                  (ExtractTableA2.output_csv a2))).
    intros path. apply tmp_same_pbind; [apply tmp_same_print|].
    intros _. apply tmp_same_extract_tables_a2.
Qed.

Lemma temp_dir_removed_on_every_exit_witness :
  (forall d, mkdtemp env_no_tables = Ok d -> dir_exists d world_example = false)
  /\ temp_dir_lifecycle env_no_tables world_example
       (ExtractTable.output_csv args_example) (ExtractTable.pdf_url args_example)
       (ExtractTable.main_block env_no_tables args_example)
       (ExtractTable.main env_no_tables args_example world_example)
  /\ temp_dir_lifecycle env_no_tables world_example
       (ExtractTableA2.output_csv args_a2_example)
       (ExtractTableA2.pdf_url args_a2_example)
       (ExtractTableA2.main_block env_no_tables args_a2_example)
       (ExtractTableA2.main env_no_tables args_a2_example world_example).
Proof.
  assert (H : forall d, mkdtemp env_no_tables = Ok d ->
                        dir_exists d world_example = false).
  { intros d Hd. injection Hd as <-. reflexivity. }
  split; [exact H|].
  exact (temp_dir_removed_on_every_exit env_no_tables args_example
           args_a2_example world_example H).
Defined.

(** The ways out of a run are all taken: a run that writes its output,
    one that stops at the download, one that finds no table.  In the last
    the PDF is in the temporary directory when the block is left, and the
    directory is gone when the run ends. *)
Example exit_paths :
  (fst (ExtractTable.main env_ok args_example world_example) = Return tt
   /\ outputs (snd (ExtractTable.main env_ok args_example world_example))
      = ["out/t.csv"])
  /\ (fst (ExtractTable.main env_no_network args_example world_example)
      = SysExit 1
      /\ outputs (snd (ExtractTable.main env_no_network args_example
                         world_example)) = [])
  /\ (fst (ExtractTable.main env_no_tables args_example world_example)
      = SysExit 1
      /\ files_in "/tmp/tmpq1"
           (snd (ExtractTable.main_block env_no_tables args_example "/tmp/tmpq1"
                   (add_dir "/tmp/tmpq1" world_example)))
         = ["temp_pdf.pdf"]
      /\ tmp (snd (ExtractTable.main env_no_tables args_example world_example))
         = tmp world_example)
  /\ fst (ExtractTableA2.main env_ok args_a2_example world_example) = Return tt.
Proof. repeat split; vm_compute; reflexivity. Qed.

(* ================================================================= *)
(** ** Further properties of a run *)

Section Silent.

Variable e : env.












Variable out : string.











End Silent.


Section SameRun.

Lemma pbind_ext {A B : Type} (m : prog A) (k1 k2 : A -> prog B) (w : world) :
  (forall a w1, k1 a w1 = k2 a w1) -> pbind m k1 w = pbind m k2 w.
Proof.
  intros H. unfold pbind. destruct (m w) as [[a|c|x] w1]; [apply H| |];
    reflexivity.
Qed.

Lemma try_except_ext {A : Type} (m1 m2 : prog A) (handler : exn -> prog A)
  (w : world) :
  (forall w1, m1 w1 = m2 w1) ->
  try_except m1 handler w = try_except m2 handler w.
Proof. intros H. unfold try_except. now rewrite H. Qed.

Lemma with_TemporaryDirectory_ext {A : Type} (e : env)
  (b1 b2 : string -> prog A) (w : world) :
  (forall d w1, b1 d w1 = b2 d w1) ->
  with_TemporaryDirectory e b1 w = with_TemporaryDirectory e b2 w.
Proof.
  intros H. unfold with_TemporaryDirectory.
  destruct (mkdtemp e); [now rewrite H|reflexivity].
Qed.

Lemma pages_list_str_agree (s : string) :
  pages_list (PyStr s) = ExtractTableA2.pages_list (PyStr s).
Proof.
  unfold pages_list, ExtractTableA2.pages_list. cbn [py_str str bind].
  destruct (PyStr.lower s =? "all"); [reflexivity|].
  apply (f_equal (fun m => l <- m ;; Ok (PageList l))).
  apply pages_loop_agree.
Qed.

(** Lines 141-145 when [header_rows] is zero or negative: the tables are
    passed on as they are, and nothing is printed. *)
Lemma for_each_no_header (h : Z) (g : DataFrame -> prog DataFrame)
  (tables : list DataFrame) (w : world) :
  (h <= 0)%Z ->
  for_each (fun df => if negb (h =? 0)%Z && (h >? 0)%Z then g df else ret df)
           tables w
  = (Return tables, w).
Proof.
  intros Hh.
  assert (Hg : (negb (h =? 0)%Z && (h >? 0)%Z) = false).
  { destruct (Z.gtb_spec h 0); [lia|apply andb_false_r]. }
  rewrite Hg. clear Hg.
  induction tables as [|t ts IH]; [reflexivity|].
  cbn [for_each]. unfold pbind at 1. unfold ret at 1.
  unfold pbind. now rewrite IH.
Qed.

Lemma extract_tables_no_header (e : env) (pdf_path s out : string) (h : Z)
  (flatten : bool) (sep : string) (w : world) :
  (h <= 0)%Z ->
  extract_tables e pdf_path (PyStr s) out h flatten sep w
  = ExtractTableA2.extract_tables e pdf_path (PyStr s) out w.
Proof.
  intros Hh. unfold extract_tables, ExtractTableA2.extract_tables.
  apply try_except_ext. clear w. intros w.
  rewrite <- pages_list_str_agree.
  apply pbind_ext. intros pl w1.
  apply pbind_ext. intros _ w2.
  apply pbind_ext. intros tables w3.
  apply pbind_ext. intros _ w4.
  unfold pbind at 1. now rewrite for_each_no_header by exact Hh.
Qed.

End SameRun.

(** X11: without header rows the richer script is the plain one: when
    [--header-rows] is zero (its default) or negative, a run of
    [extract_table.py] ends as the run of [extract_table_a2.py] on the
    same URL, pages and output file does, and leaves the same world,
    whatever the flatten flag and the separator. *)
Theorem main_without_header_rows (e : env) (url pg out : string) (h : Z)
  (flatten : bool) (sep : string) (w : world) :
  (h <= 0)%Z ->
  main e (mkArgs url pg out h flatten sep) w
  = ExtractTableA2.main e (ExtractTableA2.mkArgs url pg out) w.
Proof.
  intros Hh. unfold main, ExtractTableA2.main.
  cbn [pdf_url pages output_csv header_rows flatten_headers header_sep
       ExtractTableA2.pdf_url ExtractTableA2.pages ExtractTableA2.output_csv].
  apply pbind_ext. intros _ w1.
  apply pbind_ext. intros _ w2.
  apply with_TemporaryDirectory_ext. intros d w3.
  unfold main_block, ExtractTableA2.main_block.
  cbn [pdf_url pages output_csv header_rows flatten_headers header_sep
       ExtractTableA2.pdf_url ExtractTableA2.pages ExtractTableA2.output_csv].
  apply pbind_ext. intros _ w4.
  apply (pbind_ext (download_pdf e url d)). intros path w5.
  apply pbind_ext. intros _ w6.
  now apply extract_tables_no_header.
Qed.

Lemma main_without_header_rows_witness :
  (0 <= 0)%Z
  /\ main env_ok (mkArgs "http://host/doc.pdf" "1,3,5-7" "out/t.csv" 0 true "/")
          world_example
     = ExtractTableA2.main env_ok
         (ExtractTableA2.mkArgs "http://host/doc.pdf" "1,3,5-7" "out/t.csv")
         world_example.
Proof.
  split; [lia|].
  apply (main_without_header_rows env_ok "http://host/doc.pdf" "1,3,5-7"
           "out/t.csv" 0 true "/" world_example).
  lia.
Defined.
